(** * LarConectado: home-automation firmware (Projeto_webserver.c)

    A shallow embedding of the request router, the two renderers, the
    ultrasonic ranging loop and the temperature conversion of
    [Projeto_webserver.c], with the properties of the design document
    stated and proved over it.

    Conventions.
    - C strings are [string]s read up to their first NUL byte ([c_str]).
    - The module-level variables of the C file are the fields of [World];
      every call to a driver (PIO FIFO, OLED, GPIO, TCP, sleep) appends an
      [Event] to the chronological log [out].
    - [float] is IEEE-754 binary32 and [double] binary64, round to nearest
      even, through the Standard Library's [SpecFloat]. *)

From Stdlib Require Import Bool Ascii String List ZArith QArith Qabs Lia.
From Stdlib Require Import Floats.SpecFloat.
Import ListNotations.

Open Scope Z_scope.

(** ** C strings *)

Module CStr.

Definition NUL : ascii := "000"%char.
Definition CR : ascii := "013"%char.
Definition LF : ascii := "010"%char.
Definition DQUOTE : ascii := ascii_of_nat 34.

Definition CRLF : string := String CR (String LF EmptyString).
Definition NL : string := String LF EmptyString.
Definition DQ : string := String DQUOTE EmptyString.

(** The bytes of a buffer that a C string function sees: everything
    before the first NUL. *)
Fixpoint c_str (buf : string) : string :=
  match buf with
  | EmptyString => EmptyString
  | String c rest => if Ascii.eqb c NUL then EmptyString else String c (c_str rest)
  end.

Fixpoint starts_with (p s : string) : bool :=
  match p with
  | EmptyString => true
  | String a p' =>
      match s with
      | EmptyString => false
      | String b s' => Ascii.eqb a b && starts_with p' s'
      end
  end.

(** Offset of the first occurrence of [needle] in [hay]. *)
Fixpoint find_sub (needle hay : string) : option nat :=
  if starts_with needle hay then Some O
  else match hay with
       | EmptyString => None
       | String _ hay' => option_map S (find_sub needle hay')
       end.

(** [strstr(haystack, needle)]: the offset of the returned pointer from
    [haystack], [None] for the NULL pointer. *)
Definition strstr (haystack needle : string) : option nat :=
  find_sub (c_str needle) (c_str haystack).

(** [ptr != NULL] *)
Definition not_null {A} (p : option A) : bool :=
  match p with Some _ => true | None => false end.

(** [snprintf] into a buffer of [size] bytes keeps at most [size - 1]
    characters. *)
Definition snprintf_trunc (size : nat) (s : string) : string :=
  substring 0 (size - 1) s.

End CStr.
Import CStr.

(** ** Hardware and driver events *)

Inductive Pin : Set :=
| LED_PIN | LED_BLUE_PIN | LED_GREEN_PIN | LED_RED_PIN
| TRIG_PIN | ECHO_PIN | ldr_pin.

(** Drawing primitives of the SSD1306 driver ([inc/ssd1306.h], an external
    collaborator).  The off-screen buffer is kept symbolically as the list
    of primitives applied since the last fill, a fill overwriting every
    pixel. *)
Inductive DrawOp : Set :=
| Fill (value : bool)
| Rect (top left width height : Z) (value fill : bool)
| DrawString (str : string) (x y : Z).

Definition Frame := list DrawOp.

Inductive Event : Set :=
| PioPut (word : Z)                     (* pio_sm_put_blocking *)
| OledSend (frame : Frame)              (* ssd1306_send_data *)
| SleepMs (ms : Z)
| SleepUs (us : Z)
| GpioPut (pin : Pin) (value : bool)
| Cyw43GpioPut (pin : Pin) (value : bool)
| AdcSelectInput (channel : Z)
| Printf (text : string)
| TcpWrite (data : string)
| TcpOutput
| TcpClose
| TcpRecvNull                           (* tcp_recv(tpcb, NULL) *)
| Free                                  (* free(request) *)
| PbufFree.

(** ** Global state *)

Record World : Set := mkWorld {
  estado_led_sala : bool;
  estado_led_cozinha : bool;
  estado_led_quarto : bool;
  estado_led_banheiro : bool;
  estado_led_quintal : bool;
  estado_display : bool;
  tv : Z;
  ssd : Frame;
  out : list Event
}.

(** Initial values of the globals (lines 70-78); the display buffer is
    cleared by [main] before the loop starts. *)
Definition world0 : World :=
  mkWorld false false false false false false 0 [Fill false] [].

(** ** A state monad over [World] *)

Definition M (A : Type) : Type := World -> A * World.

Definition ret {A} (a : A) : M A := fun w => (a, w).
Definition bind {A B} (c : M A) (k : A -> M B) : M B :=
  fun w => let (a, w') := c w in k a w'.
Definition exec {A} (c : M A) (w : World) : World := snd (c w).

Declare Scope m_scope.
Delimit Scope m_scope with M.
Notation "x <- c ;; k" := (bind c (fun x => k))
  (at level 61, c at next level, right associativity) : m_scope.
Notation "c ;; k" := (bind c (fun _ => k))
  (at level 61, right associativity) : m_scope.
Open Scope m_scope.

Definition read {A} (field : World -> A) : M A := fun w => (field w, w).

Definition set_sala (v : bool) : M unit := fun w =>
  (tt, mkWorld v (estado_led_cozinha w) (estado_led_quarto w) (estado_led_banheiro w)
               (estado_led_quintal w) (estado_display w) (tv w) (ssd w) (out w)).
Definition set_cozinha (v : bool) : M unit := fun w =>
  (tt, mkWorld (estado_led_sala w) v (estado_led_quarto w) (estado_led_banheiro w)
               (estado_led_quintal w) (estado_display w) (tv w) (ssd w) (out w)).
Definition set_quarto (v : bool) : M unit := fun w =>
  (tt, mkWorld (estado_led_sala w) (estado_led_cozinha w) v (estado_led_banheiro w)
               (estado_led_quintal w) (estado_display w) (tv w) (ssd w) (out w)).
Definition set_banheiro (v : bool) : M unit := fun w =>
  (tt, mkWorld (estado_led_sala w) (estado_led_cozinha w) (estado_led_quarto w) v
               (estado_led_quintal w) (estado_display w) (tv w) (ssd w) (out w)).
Definition set_quintal (v : bool) : M unit := fun w =>
  (tt, mkWorld (estado_led_sala w) (estado_led_cozinha w) (estado_led_quarto w)
               (estado_led_banheiro w) v (estado_display w) (tv w) (ssd w) (out w)).
Definition set_display (v : bool) : M unit := fun w =>
  (tt, mkWorld (estado_led_sala w) (estado_led_cozinha w) (estado_led_quarto w)
               (estado_led_banheiro w) (estado_led_quintal w) v (tv w) (ssd w) (out w)).
Definition set_tv (v : Z) : M unit := fun w =>
  (tt, mkWorld (estado_led_sala w) (estado_led_cozinha w) (estado_led_quarto w)
               (estado_led_banheiro w) (estado_led_quintal w) (estado_display w)
               v (ssd w) (out w)).
Definition set_ssd (f : Frame) : M unit := fun w =>
  (tt, mkWorld (estado_led_sala w) (estado_led_cozinha w) (estado_led_quarto w)
               (estado_led_banheiro w) (estado_led_quintal w) (estado_display w)
               (tv w) f (out w)).
Definition emit (e : Event) : M unit := fun w =>
  (tt, mkWorld (estado_led_sala w) (estado_led_cozinha w) (estado_led_quarto w)
               (estado_led_banheiro w) (estado_led_quintal w) (estado_display w)
               (tv w) (ssd w) (out w ++ [e])).

(** [for (x in xs) body(x);] *)
Fixpoint for_each {A} (xs : list A) (body : A -> M unit) : M unit :=
  match xs with
  | [] => ret tt
  | x :: xs' => body x ;; for_each xs' body
  end.

(** The values taken by [i] in [for (int i = 0; i < n; i++)]. *)
Definition upto (n : Z) : list Z := map Z.of_nat (seq 0 (Z.to_nat n)).

(** ** Driver calls *)

Definition pio_sm_put_blocking (word : Z) : M unit := emit (PioPut word).
Definition sleep_ms (ms : Z) : M unit := emit (SleepMs ms).
Definition sleep_us (us : Z) : M unit := emit (SleepUs us).
Definition gpio_put (pin : Pin) (v : bool) : M unit := emit (GpioPut pin v).
Definition cyw43_arch_gpio_put (pin : Pin) (v : bool) : M unit := emit (Cyw43GpioPut pin v).

Definition ssd1306_fill (value : bool) : M unit := set_ssd [Fill value].
Definition ssd1306_rect (top left width height : Z) (value fill : bool) : M unit :=
  buf <- read ssd ;; set_ssd (buf ++ [Rect top left width height value fill]).
Definition ssd1306_draw_string (str : string) (x y : Z) : M unit :=
  buf <- read ssd ;; set_ssd (buf ++ [DrawString str x y]).
Definition ssd1306_send_data : M unit :=
  buf <- read ssd ;; emit (OledSend buf).

(** ** Request router (lines 365-391) *)

Definition user_request (request : string) : M unit :=
  if not_null (strstr request "GET /mudar_estado_luz_sala") then
    v <- read estado_led_sala ;; set_sala (negb v)
  else if not_null (strstr request "GET /mudar_estado_luz_cozinha") then
    v <- read estado_led_cozinha ;; set_cozinha (negb v)
  else if not_null (strstr request "GET /mudar_estado_luz_quarto") then
    v <- read estado_led_quarto ;; set_quarto (negb v)
  else if not_null (strstr request "GET /mudar_estado_luz_banheiro") then
    v <- read estado_led_banheiro ;; set_banheiro (negb v)
  else if not_null (strstr request "GET /mudar_estado_luz_quintal") then
    v <- read estado_led_quintal ;; set_quintal (negb v)
  else if not_null (strstr request "GET /mudar_estado_display") then
    v <- read estado_display ;; set_display (negb v)
  else if not_null (strstr request "GET /on") then
    cyw43_arch_gpio_put LED_PIN true
  else if not_null (strstr request "GET /off") then
    cyw43_arch_gpio_put LED_PIN false
  else ret tt.

(** ** Floating point: binary32 and binary64 *)

Module F32.
Definition prec : Z := 24.
Definition emax : Z := 128.
Definition t := spec_float.

(** Conversion of an integer, rounding to nearest even. *)
Definition of_Z (z : Z) : t := binary_normalize prec emax z 0 false.
Definition sub : t -> t -> t := SFsub prec emax.
Definition mul : t -> t -> t := SFmul prec emax.
Definition div : t -> t -> t := SFdiv prec emax.
Definition ltb : t -> t -> bool := SFltb.

(** The literal [num/den] written in decimal with suffix [f]: the
    binary32 value nearest to it.  Both [num] and [den] are below 2^24,
    hence exact, and the division rounds their quotient once. *)
Definition lit (num den : Z) : t := div (of_Z num) (of_Z den).
End F32.

Module F64.
Definition prec : Z := 53.
Definition emax : Z := 1024.
Definition t := spec_float.

Definition of_Z (z : Z) : t := binary_normalize prec emax z 0 false.
Definition div : t -> t -> t := SFdiv prec emax.

(** Conversion [(float) d] of a double. *)
Definition to_f32 (d : t) : F32.t :=
  match d with
  | S754_finite s m e => binary_round F32.prec F32.emax s m e
  | other => other
  end.
End F64.

(** The exact value of a finite float, as a rational. *)
Definition SF2Q (x : spec_float) : Q :=
  match x with
  | S754_finite s m e =>
      let v := match e with
               | Zneg p => Qmake (Zpos m) (2 ^ p)
               | _ => inject_Z (Zpos m * 2 ^ e)
               end in
      if s then Qopp v else v
  | _ => 0%Q
  end.

Definition is_finite (x : spec_float) : bool :=
  match x with
  | S754_finite _ _ _ | S754_zero _ => true
  | _ => false
  end.

(** ** LED matrix (lines 227-260) *)

Definition NUM_PIXELS : Z := 25.

Definition ligar_luz : M unit :=
  sala <- read estado_led_sala ;;
  cozinha <- read estado_led_cozinha ;;
  quarto <- read estado_led_quarto ;;
  banheiro <- read estado_led_banheiro ;;
  quintal <- read estado_led_quintal ;;
  let luz_sala := if sala then 0xFFFFFF00 else 0x00000000 in
  let luz_cozinha := if cozinha then 0xFFFFFF00 else 0x00000000 in
  let luz_quarto := if quarto then 0xFFFFFF00 else 0x00000000 in
  let luz_banheiro := if banheiro then 0xFFFFFF00 else 0x00000000 in
  let luz_quintal := if quintal then 0xFFFFFF00 else 0x00000000 in
  for_each (upto NUM_PIXELS) (fun i =>
    let linha := Z.quot i 5 in
    let valor_led :=
      if linha =? 4 then luz_sala
      else if linha =? 3 then luz_cozinha
      else if linha =? 2 then luz_quarto
      else if linha =? 1 then luz_banheiro
      else if linha =? 0 then luz_quintal
      else 0x000000 in
    pio_sm_put_blocking valor_led).

(** ** OLED display (lines 263-306) *)

Definition ligar_display : M unit :=
  let cor := true in
  ssd1306_fill (negb cor) ;;
  ssd1306_rect 0 0 127 63 cor (negb cor) ;;
  ssd1306_rect 3 3 122 60 cor (negb cor) ;;
  ligado <- read estado_display ;;
  if ligado then
    ssd1306_fill (negb cor) ;;
    ssd1306_rect 0 0 127 63 cor (negb cor) ;;
    ssd1306_rect 3 3 122 60 cor (negb cor) ;;
    ssd1306_draw_string "TELEVISAO " 35 30 ;;
    ssd1306_draw_string "LIGADA" 38 40 ;;
    ssd1306_send_data ;;
    set_tv 1
  else
    t <- read tv ;;
    if t =? 1 then
      ssd1306_fill (negb cor) ;;
      ssd1306_rect 0 0 127 63 cor (negb cor) ;;
      ssd1306_rect 3 3 122 60 cor (negb cor) ;;
      ssd1306_draw_string "TELEVISAO " 30 30 ;;
      ssd1306_draw_string "DESLIGADA" 28 40 ;;
      ssd1306_send_data ;;
      sleep_ms 2000 ;;
      ssd1306_fill (negb cor) ;;
      ssd1306_send_data ;;
      set_tv 0
    else ret tt.

(** ** Ultrasonic ranging (lines 311-338) *)

Definition send_trigger_pulse : M unit :=
  gpio_put TRIG_PIN true ;;
  sleep_us 10 ;;
  gpio_put TRIG_PIN false.

(** [(int64_t)] of a 64-bit difference. *)
Definition to_int64 (z : Z) : Z :=
  let u := z mod 2 ^ 64 in
  if u <? 2 ^ 63 then u else u - 2 ^ 64.

Definition absolute_time_diff_us (from to : Z) : Z := to_int64 (to - from).

Record Reading : Set := mkReading {
  pulse_duration : Z;        (* microseconds, int64_t *)
  distance_cm : F32.t;
  reads_done : nat           (* echo samples consumed when the call returns *)
}.

(** [pulse_duration / 58.0] is a double division, stored in a float. *)
Definition pulse_to_cm (pulse : Z) : F32.t :=
  F64.to_f32 (F64.div (F64.of_Z pulse) (F64.of_Z 58)).

Section Ranging.
(** The environment of the sensor: [echo k] is the level returned by the
    [k]-th call of [gpio_get(ECHO_PIN)] since boot, and [time_us k] the
    value of the microsecond timer once [k] such calls have been made. *)
Variable echo : nat -> bool.
Variable time_us : nat -> Z.

(** [while (gpio_get(ECHO_PIN) == level);] with [k] samples already
    consumed: the number of samples consumed when the loop exits, or
    [None] when [fuel] iterations did not see it exit. *)
Fixpoint wait_while (level : bool) (fuel k : nat) : option nat :=
  match fuel with
  | O => None
  | S fuel' =>
      if Bool.eqb (echo k) level then wait_while level fuel' (S k)
      else Some (S k)
  end.

Definition measure_distance_cm (fuel k : nat) : M (option Reading) :=
  send_trigger_pulse ;;
  match wait_while false fuel k with
  | None => ret None
  | Some k1 =>
      let start := time_us k1 in
      match wait_while true fuel k1 with
      | None => ret None
      | Some k2 =>
          let end_ := time_us k2 in
          let pulse := absolute_time_diff_us start end_ in
          ret (Some (mkReading pulse (pulse_to_cm pulse) k2))
      end
  end.
End Ranging.

(** ** Temperature (lines 394-403) *)

(** [adc_sample] is the value returned by [adc_read()], a [uint16_t]
    holding a 12-bit conversion. *)
Definition temp_read (adc_sample : Z) : M F32.t :=
  emit (AdcSelectInput 4) ;;
  let raw_value := adc_sample in
  let conversion_factor := F32.div (F32.lit 33 10) (F32.of_Z (Z.shiftl 1 12)) in
  let temperature :=
    F32.sub (F32.of_Z 27)
      (F32.div
         (F32.sub (F32.mul (F32.of_Z raw_value) conversion_factor) (F32.lit 706 1000))
         (F32.lit 1721 1000000)) in
  ret temperature.

(** The calibration formula with exact rational arithmetic. *)
Definition temperature_formula (raw : Z) : Q :=
  (27 - ((inject_Z raw * (33 # 10) / 4096) - (706 # 1000)) / (1721 # 1000000))%Q.

(** ** TCP receive callback (lines 406-465) *)

Inductive err_t : Set := ERR_OK.

Section Http.
(** The C library's rendering of a float under ["%.2f"]. *)
Variable printf_2f : F32.t -> string.

Definition html_head : string :=
  ("HTTP/1.1 200 OK" ++ CRLF ++
   "Content-Type: text/html" ++ CRLF ++
   CRLF ++
   "<!DOCTYPE html>" ++ NL ++
   "<html>" ++ NL ++
   "<head>" ++ NL ++
   "<title>Controle Residencial</title>" ++ NL ++
   "<style>" ++ NL ++
   "body { background-color:rgb(188, 251, 181); font-family: Arial, sans-serif; text-align: center; margin-top: 50px; }" ++ NL ++
   "h1 { font-size: 64px; margin-bottom: 30px; }" ++ NL ++
   "button { background-color: LightBlue; font-size: 36px; margin: 10px; padding: 20px 40px; border-radius: 10px; }" ++ NL ++
   ".temperature { font-size: 48px; margin-top: 30px; color: #333; }" ++ NL ++
   "</style>" ++ NL ++
   "</head>" ++ NL ++
   "<body>" ++ NL ++
   "<h1>Controle Residencial</h1>" ++ NL ++
   "<form action=" ++ DQ ++ "./mudar_estado_luz_sala" ++ DQ ++ "><button>Luz da Sala</button></form>" ++ NL ++
   "<form action=" ++ DQ ++ "./mudar_estado_luz_cozinha" ++ DQ ++ "><button>Luz da Cozinha</button></form>" ++ NL ++
   "<form action=" ++ DQ ++ "./mudar_estado_luz_quarto" ++ DQ ++ "><button>Luz do Quarto</button></form>" ++ NL ++
   "<form action=" ++ DQ ++ "./mudar_estado_luz_banheiro" ++ DQ ++ "><button>Luz do Banheiro</button></form>" ++ NL ++
   "<form action=" ++ DQ ++ "./mudar_estado_luz_quintal" ++ DQ ++ "><button>Luz do Quintal</button></form>" ++ NL ++
   "<form action=" ++ DQ ++ "./mudar_estado_display" ++ DQ ++ "><button>Televisão</button></form>" ++ NL ++
   "<p class=" ++ DQ ++ "temperature" ++ DQ ++ ">Temperatura Interna: ")%string.

Definition html_tail : string :=
  (" &deg;C</p>" ++ NL ++
   "</body>" ++ NL ++
   "</html>" ++ NL)%string.

(** The text produced by [snprintf(html, sizeof(html), ...)] with
    [char html[2048]]. *)
Definition status_page (temperature : F32.t) : string :=
  snprintf_trunc 2048 (html_head ++ printf_2f temperature ++ html_tail)%string.

(** [p] is [None] for a null [pbuf], otherwise the [p->len] payload
    bytes of the first buffer. *)
Definition tcp_server_recv (p : option string) (adc_sample : Z) : M err_t :=
  match p with
  | None =>
      emit TcpClose ;;
      emit TcpRecvNull ;;
      ret ERR_OK
  | Some payload =>
      let request := payload in      (* memcpy, then a NUL terminator *)
      emit (Printf ("Request: " ++ c_str request ++ NL)%string) ;;
      user_request request ;;
      temperature <- temp_read adc_sample ;;
      let html := status_page temperature in
      emit (TcpWrite (c_str html)) ;;   (* strlen(html) bytes *)
      emit TcpOutput ;;
      emit Free ;;
      emit PbufFree ;;
      ret ERR_OK
  end.
End Http.

(** ** Vocabulary of the router *)

Inductive Flag : Set := Sala | Cozinha | Quarto | Banheiro | Quintal | Display.

Inductive Command : Set := Toggle (f : Flag) | On | Off.

Definition flag_value (f : Flag) (w : World) : bool :=
  match f with
  | Sala => estado_led_sala w
  | Cozinha => estado_led_cozinha w
  | Quarto => estado_led_quarto w
  | Banheiro => estado_led_banheiro w
  | Quintal => estado_led_quintal w
  | Display => estado_display w
  end.

Definition all_flags : list Flag := [Sala; Cozinha; Quarto; Banheiro; Quintal; Display].

Definition Flag_eqb (f g : Flag) : bool :=
  match f, g with
  | Sala, Sala | Cozinha, Cozinha | Quarto, Quarto
  | Banheiro, Banheiro | Quintal, Quintal | Display, Display => true
  | _, _ => false
  end.

Definition toggle_path (f : Flag) : string :=
  match f with
  | Sala => "/mudar_estado_luz_sala"
  | Cozinha => "/mudar_estado_luz_cozinha"
  | Quarto => "/mudar_estado_luz_quarto"
  | Banheiro => "/mudar_estado_luz_banheiro"
  | Quintal => "/mudar_estado_luz_quintal"
  | Display => "/mudar_estado_display"
  end.

Definition command_path (c : Command) : string :=
  match c with
  | Toggle f => toggle_path f
  | On => "/on"
  | Off => "/off"
  end.

(** The literal searched for by the check of command [c]. *)
Definition needle (c : Command) : string := ("GET " ++ command_path c)%string.

(** The eight checks, in the order of the else-if chain. *)
Definition chain : list Command :=
  [Toggle Sala; Toggle Cozinha; Toggle Quarto; Toggle Banheiro; Toggle Quintal;
   Toggle Display; On; Off].

Definition rank (c : Command) : nat :=
  match c with
  | Toggle Sala => 0 | Toggle Cozinha => 1 | Toggle Quarto => 2
  | Toggle Banheiro => 3 | Toggle Quintal => 4 | Toggle Display => 5
  | On => 6 | Off => 7
  end.

(** Does the check of command [c] succeed on [request]? *)
Definition matches (request : string) (c : Command) : bool :=
  not_null (strstr request (needle c)).

(** The first check of the chain that succeeds. *)
Definition route (request : string) : option Command :=
  find (matches request) chain.

(** The body of one branch of the chain. *)
Definition perform (c : Command) : M unit :=
  match c with
  | Toggle Sala => v <- read estado_led_sala ;; set_sala (negb v)
  | Toggle Cozinha => v <- read estado_led_cozinha ;; set_cozinha (negb v)
  | Toggle Quarto => v <- read estado_led_quarto ;; set_quarto (negb v)
  | Toggle Banheiro => v <- read estado_led_banheiro ;; set_banheiro (negb v)
  | Toggle Quintal => v <- read estado_led_quintal ;; set_quintal (negb v)
  | Toggle Display => v <- read estado_display ;; set_display (negb v)
  | On => cyw43_arch_gpio_put LED_PIN true
  | Off => cyw43_arch_gpio_put LED_PIN false
  end.

Definition perform_opt (a : option Command) : M unit :=
  match a with Some c => perform c | None => ret tt end.

(** Observable effect of command [c] on a call of the router from [w]. *)
Definition fires (c : Command) (request : string) (w : World) : Prop :=
  let w' := exec (user_request request) w in
  match c with
  | Toggle f => flag_value f w' = negb (flag_value f w)
  | On => out w' = (out w ++ [Cyw43GpioPut LED_PIN true])%list
  | Off => out w' = (out w ++ [Cyw43GpioPut LED_PIN false])%list
  end.

(** Number of flags on which two worlds differ. *)
Definition flags_changed (w w' : World) : nat :=
  List.length (filter (fun f => negb (Bool.eqb (flag_value f w) (flag_value f w'))) all_flags).

(** A browser-style request for a toggle: the request line starts with
    the method and the toggle path; [rest] is whatever follows. *)
Definition toggle_request (f : Flag) (rest : string) : string :=
  ("GET " ++ toggle_path f ++ rest)%string.

(** *** The policy asked for by the design document

    The request target of a GET request line: the text between ["GET "]
    and the first space, question mark, CR, LF or NUL. *)
Definition is_path_end (c : ascii) : bool :=
  Ascii.eqb c " " || Ascii.eqb c "?" || Ascii.eqb c CR || Ascii.eqb c LF || Ascii.eqb c NUL.

Fixpoint take_path (s : string) : string :=
  match s with
  | EmptyString => EmptyString
  | String c s' => if is_path_end c then EmptyString else String c (take_path s')
  end.

Definition request_path (request : string) : option string :=
  match request with
  | String "G" (String "E" (String "T" (String " " target))) => Some (take_path target)
  | _ => None
  end.

(** Exact-or-prefix policy, in its most permissive reading: the request
    is a GET whose path equals a command path, extends it, or is a
    non-empty prefix of it. *)
Definition exact_or_prefix_match (request : string) (c : Command) : bool :=
  match request_path request with
  | Some EmptyString | None => false
  | Some p => starts_with (command_path c) p || starts_with p (command_path c)
  end.

Definition exact_or_prefix_policy : Prop :=
  forall request w c, fires c request w -> exact_or_prefix_match request c = true.

(** ** Auxiliary definitions for the proofs *)

Definition Command_eqb (c d : Command) : bool := Nat.eqb (rank c) (rank d).

(** [clash n s]: [n] and [s] differ at a position both have, so [n] is
    no prefix of any extension of [s]. *)
Fixpoint clash (n s : string) : bool :=
  match n, s with
  | String a n', String b s' => negb (Ascii.eqb a b) || clash n' s'
  | _, _ => false
  end.

(** [n] starts at no position of [p], whatever follows [p]. *)
Fixpoint no_hit (n p : string) : bool :=
  match p with
  | EmptyString => true
  | String _ p' => clash n p && no_hit n p'
  end.


(** Requests used as concrete inputs. *)
Definition embedded_request : string :=
  ("GET /favicon.ico HTTP/1.1" ++ CRLF ++
   "X-Note: GET /mudar_estado_luz_sala" ++ CRLF ++ CRLF)%string.


Definition browser_tail : string :=
  ("? HTTP/1.1" ++ CRLF ++ "Host: 192.168.0.20" ++ CRLF ++
   "Referer: http://192.168.0.20/mudar_estado_luz_cozinha?" ++ CRLF ++ CRLF)%string.

(** The value computed by [temp_read] for a given ADC sample. *)
Definition temperature_of (adc_sample : Z) : F32.t := fst (temp_read adc_sample world0).

(** *** Display frames *)

Definition on_frame : Frame :=
  [Fill false; Rect 0 0 127 63 true false; Rect 3 3 122 60 true false;
   DrawString "TELEVISAO " 35 30; DrawString "LIGADA" 38 40].

Definition off_frame : Frame :=
  [Fill false; Rect 0 0 127 63 true false; Rect 3 3 122 60 true false;
   DrawString "TELEVISAO " 30 30; DrawString "DESLIGADA" 28 40].

Definition blank_frame : Frame := [Fill false].

(** Successive iterations of the render loop, the display flag holding
    the given values when [ligar_display] is called. *)
Definition render_once (w : World) (flag : bool) : World :=
  exec ligar_display (exec (set_display flag) w).

Definition run_display (flags : list bool) (w : World) : World :=
  fold_left render_once flags w.

(** What one render sends, given the flag at the previous render. *)
Definition display_events (prev cur : bool) : list Event :=
  if cur then [OledSend on_frame]
  else if prev then [OledSend off_frame; SleepMs 2000; OledSend blank_frame]
  else [].

Fixpoint trace_of (prev : bool) (flags : list bool) : list Event :=
  match flags with
  | [] => []
  | b :: bs => (display_events prev b ++ trace_of b bs)%list
  end.

(** Number of true-to-false edges of a flag sequence that follows [prev]. *)
Fixpoint falling_edges (prev : bool) (flags : list bool) : nat :=
  match flags with
  | [] => O
  | b :: bs => ((if prev && negb b then 1 else 0) + falling_edges b bs)%nat
  end.

(** Is the event a frame sent to the display that carries [text]? *)
Definition shows (text : string) (e : Event) : bool :=
  match e with
  | OledSend f =>
      existsb (fun op => match op with
                         | DrawString s _ _ => String.eqb s text
                         | _ => false
                         end) f
  | _ => false
  end.

Definition count_shown (text : string) (tr : list Event) : nat :=
  List.length (filter (shows text) tr).

(** *** LED matrix *)

(** Row of the 5x5 matrix assigned to each room flag. *)
Definition row_of (f : Flag) : option Z :=
  match f with
  | Sala => Some 4
  | Cozinha => Some 3
  | Quarto => Some 2
  | Banheiro => Some 1
  | Quintal => Some 0
  | Display => None
  end.

Definition LED_ON : Z := 0xFFFFFF00.
Definition LED_OFF : Z := 0.

(** The word sent for pixel [i] by [ligar_luz] in world [w]. *)
Definition pixel_word (w : World) (i : Z) : Z :=
  let linha := Z.quot i 5 in
  if linha =? 4 then (if estado_led_sala w then 0xFFFFFF00 else 0x00000000)
  else if linha =? 3 then (if estado_led_cozinha w then 0xFFFFFF00 else 0x00000000)
  else if linha =? 2 then (if estado_led_quarto w then 0xFFFFFF00 else 0x00000000)
  else if linha =? 1 then (if estado_led_banheiro w then 0xFFFFFF00 else 0x00000000)
  else if linha =? 0 then (if estado_led_quintal w then 0xFFFFFF00 else 0x00000000)
  else 0x000000.

Definition with_out (w : World) (o : list Event) : World :=
  mkWorld (estado_led_sala w) (estado_led_cozinha w) (estado_led_quarto w)
          (estado_led_banheiro w) (estado_led_quintal w) (estado_display w)
          (tv w) (ssd w) o.

(** *** Ranging and temperature *)

(** The echo line is read high at some sample from [k] on and low at a
    later one. *)
Definition rises_then_falls (echo : nat -> bool) (k : nat) : Prop :=
  exists i j, (k <= i < j)%nat /\ echo i = true /\ echo j = false.

(** A sensor environment used as a concrete input: the echo line is high
    for samples 3 to 6, and a sample is taken every 145 microseconds. *)
Definition echo_pulse (k : nat) : bool := (3 <=? k)%nat && (k <? 7)%nat.
Definition sample_clock (k : nat) : Z := 1000 + 145 * Z.of_nat k.

(** Is the temperature computed for [raw] finite and within a hundredth
    of a degree of the exact formula? *)
Definition temp_within_tolerance (raw : Z) : bool :=
  is_finite (temperature_of raw) &&
  Qle_bool (Qabs (SF2Q (temperature_of raw) - temperature_formula raw)) (1 # 100).

(** ** Front lights and the main loop (lines 172-187, 341-354) *)

Section FrontLights.
Variable echo : nat -> bool.
Variable time_us : nat -> Z.

(** [ldr] is the level of [gpio_get(ldr_pin)].  The result is the number
    of echo samples consumed, [None] when the measurement did not return
    within [fuel] polls. *)
Definition luz_frente_controlada (fuel k : nat) (ldr : bool) : M (option nat) :=
  r <- measure_distance_cm echo time_us fuel k ;;
  match r with
  | None => ret None
  | Some reading =>
      let dist := distance_cm reading in
      (if F32.ltb dist (F32.of_Z 15) && negb ldr then
         gpio_put LED_BLUE_PIN true ;;
         gpio_put LED_GREEN_PIN true ;;
         gpio_put LED_RED_PIN true
       else
         gpio_put LED_BLUE_PIN false ;;
         gpio_put LED_GREEN_PIN false ;;
         gpio_put LED_RED_PIN false) ;;
      ret (Some (reads_done reading))
  end.

Section Loop.
Variable printf_2f : F32.t -> string.

(** [cyw43_arch_poll()]: the network stack calls the receive callback
    once for each buffer it has to deliver; [deliveries] lists them in
    order, each with the ADC sample read while it is served. *)
Definition cyw43_arch_poll (deliveries : list (option string * Z)) : M unit :=
  for_each deliveries
    (fun d => tcp_server_recv printf_2f (fst d) (snd d) ;; ret tt).

(** One iteration of [while (true)] in [main]. *)
Definition loop_iteration (fuel k : nat) (ldr : bool)
    (deliveries : list (option string * Z)) : M (option nat) :=
  r <- luz_frente_controlada fuel k ldr ;;
  match r with
  | None => ret None
  | Some k' =>
      ligar_luz ;;
      ligar_display ;;
      cyw43_arch_poll deliveries ;;
      sleep_ms 100 ;;
      ret (Some k')
  end.
End Loop.
End FrontLights.

(** ** Auxiliary definitions for further properties *)

From Stdlib Require Import Permutation Lqa.

(** Routing a sequence of requests, one call each. *)
Definition run_requests (rs : list string) (w : World) : World :=
  fold_left (fun v r => exec (user_request r) v) rs w.

(** Is [request] routed to the toggle of flag [f]? *)
Definition routed_to (f : Flag) (request : string) : bool :=
  match route request with
  | Some (Toggle g) => Flag_eqb f g
  | _ => false
  end.

Definition toggles_of (f : Flag) (rs : list string) : nat :=
  List.length (filter (routed_to f) rs).

(** Number of room flags that are set. *)
Definition rooms_on (w : World) : nat :=
  List.length (filter (fun f => flag_value f w) [Sala; Cozinha; Quarto; Banheiro; Quintal]).

(** The words pushed to the PIO FIFO among a list of events. *)
Fixpoint pio_words (evs : list Event) : list Z :=
  match evs with
  | [] => []
  | PioPut word :: evs' => word :: pio_words evs'
  | _ :: evs' => pio_words evs'
  end.

(** The payloads among the deliveries of a poll. *)
Fixpoint payloads (ds : list (option string * Z)) : list string :=
  match ds with
  | [] => []
  | (Some r, _) :: ds' => r :: payloads ds'
  | (None, _) :: ds' => payloads ds'
  end.


(** Is the pulse below the proximity threshold when converted and
    compared as [luz_frente_controlada] does? *)
Definition near_agrees (pulse : Z) : bool :=
  Bool.eqb (F32.ltb (pulse_to_cm pulse) (F32.of_Z 15)) (pulse <? 870).

(** A timer that advances 145 microseconds per sample and stops after a
    thousand samples, used as a concrete input. *)
Definition bounded_clock (k : nat) : Z := 1000 + 145 * Z.of_nat (Nat.min k 1000).

(** Two worlds with the same six flags. *)
Definition same_flags (w w' : World) : Prop :=
  forall f, flag_value f w = flag_value f w'.

(** ** Statements of the design document read on the request path *)

(** The frame property with the toggle identified by the path of the
    request: a request whose path is the toggle path of [f] changes no
    flag other than [f]. *)
Definition toggle_frame_by_path : Prop :=
  forall request f g w,
    request_path request = Some (toggle_path f) ->
    g <> f ->
    flag_value g (exec (user_request request) w) = flag_value g w.


(** A request for the kitchen toggle that carries the literal of the
    living-room toggle in a header. *)
Definition cozinha_request_with_sala_header : string :=
  ("GET /mudar_estado_luz_cozinha HTTP/1.1" ++ CRLF ++
   "X-Note: GET /mudar_estado_luz_sala" ++ CRLF ++ CRLF)%string.


(** Is the distance computed for [pulse] finite and within a hundred
    thousandth of a centimetre of [pulse / 58]? *)
Definition pulse_cm_close (pulse : Z) : bool :=
  is_finite (pulse_to_cm pulse) &&
  Qle_bool (Qabs (SF2Q (pulse_to_cm pulse) - inject_Z pulse / 58)) (1 # 100000).

(** * Properties *)

(** ** Strings *)

Section StringFacts.

Lemma starts_with_trans q n h :
  starts_with q n = true -> starts_with n h = true -> starts_with q h = true.
Proof.
  revert n h; induction q as [|a q IH]; intros [|b n] [|c h]; simpl; try easy.
  intros H1 H2.
  apply andb_true_iff in H1 as [E1 H1]. apply andb_true_iff in H2 as [E2 H2].
  apply Ascii.eqb_eq in E1, E2. subst. rewrite Ascii.eqb_refl. simpl. eauto.
Qed.

Lemma starts_with_app n h : starts_with n (n ++ h) = true.
Proof.
  induction n as [|a n IH]; simpl; [reflexivity|].
  now rewrite Ascii.eqb_refl.
Qed.

Lemma find_sub_unfold n h :
  find_sub n h =
  if starts_with n h then Some O
  else match h with
       | EmptyString => None
       | String _ h' => option_map S (find_sub n h')
       end.
Proof. destruct h; reflexivity. Qed.

(** An occurrence of a string is an occurrence of each of its prefixes. *)
Lemma find_sub_none_longer q n h :
  starts_with q n = true -> find_sub q h = None -> find_sub n h = None.
Proof.
  intros Hq. induction h as [|c h IH]; rewrite (find_sub_unfold q), (find_sub_unfold n).
  - destruct (starts_with n "") eqn:E'.
    + now rewrite (starts_with_trans _ _ _ Hq E').
    + reflexivity.
  - destruct (starts_with n (String c h)) eqn:E'.
    + now rewrite (starts_with_trans _ _ _ Hq E').
    + destruct (starts_with q (String c h)); [discriminate|].
      destruct (find_sub q h); [discriminate|]. intros _. now rewrite IH.
Qed.

Lemma clash_starts_with n s h : clash n s = true -> starts_with n (s ++ h) = false.
Proof.
  revert s; induction n as [|a n IH]; intros [|b s]; simpl; try discriminate.
  destruct (Ascii.eqb a b); simpl; auto.
Qed.

Lemma find_sub_skip n p h :
  no_hit n p = true -> not_null (find_sub n (p ++ h)) = not_null (find_sub n h).
Proof.
  induction p as [|c p IH]; [reflexivity|].
  intros H. apply andb_true_iff in H as [Hc Hp].
  change (String c p ++ h)%string with (String c (p ++ h)).
  rewrite find_sub_unfold.
  change (String c (p ++ h)) with (String c p ++ h)%string.
  rewrite (clash_starts_with _ _ _ Hc).
  destruct (find_sub n (p ++ h)) eqn:E; rewrite <- (IH Hp); reflexivity.
Qed.

Lemma find_sub_prefix n h : find_sub n (n ++ h) = Some O.
Proof. rewrite find_sub_unfold, starts_with_app. reflexivity. Qed.

Lemma c_str_app p r : c_str p = p -> c_str (p ++ r) = (p ++ c_str r)%string.
Proof.
  induction p as [|c p IH]; simpl; [reflexivity|].
  destruct (Ascii.eqb c NUL); [discriminate|].
  intros H. injection H as H. now rewrite IH.
Qed.

Lemma c_str_idem s : c_str (c_str s) = c_str s.
Proof.
  induction s as [|c s IH]; simpl; [reflexivity|].
  destruct (Ascii.eqb c NUL) eqn:E; simpl; [reflexivity|].
  now rewrite E, IH.
Qed.

End StringFacts.

(** ** The router is its first matching branch *)

Lemma Command_eqb_eq c d : Command_eqb c d = true <-> c = d.
Proof.
  unfold Command_eqb. rewrite Nat.eqb_eq. split; [|now intros ->].
  destruct c as [[]| |], d as [[]| |]; simpl; intros H; try reflexivity; discriminate.
Qed.

Lemma c_str_needle c : c_str (needle c) = needle c.
Proof. destruct c as [[]| |]; reflexivity. Qed.

Lemma needle_GET c : starts_with "GET /" (needle c) = true.
Proof. destruct c as [[]| |]; reflexivity. Qed.

Lemma user_request_route request w :
  user_request request w = perform_opt (route request) w.
Proof.
  unfold user_request, route, chain, matches, needle.
  cbn [find command_path toggle_path append].
  repeat match goal with
  | |- context [not_null (strstr request ?n)] =>
      destruct (not_null (strstr request n)); [reflexivity|]
  end.
  reflexivity.
Qed.

Lemma exec_user_request request w :
  exec (user_request request) w = exec (perform_opt (route request)) w.
Proof. unfold exec. now rewrite user_request_route. Qed.

Lemma matches_toggle_request f rest c :
  strstr rest "GET /" = None ->
  matches (toggle_request f rest) c = Command_eqb c (Toggle f).
Proof.
  intros H. unfold strstr in H. change (c_str "GET /") with "GET /"%string in H.
  unfold matches, strstr, toggle_request. rewrite c_str_needle.
  change ("GET " ++ toggle_path f ++ rest)%string
    with (needle (Toggle f) ++ rest)%string.
  rewrite (c_str_app _ _ (c_str_needle _)).
  destruct (Command_eqb c (Toggle f)) eqn:E.
  - apply Command_eqb_eq in E. subst c. now rewrite find_sub_prefix.
  - rewrite find_sub_skip.
    + now rewrite (find_sub_none_longer _ _ _ (needle_GET c) H).
    + destruct c as [[]| |], f; try discriminate E; vm_compute; reflexivity.
Qed.

Lemma route_toggle_request f rest :
  strstr rest "GET /" = None -> route (toggle_request f rest) = Some (Toggle f).
Proof.
  intros H. unfold route, chain. cbn [find].
  rewrite !(matches_toggle_request _ _ _ H).
  destruct f; reflexivity.
Qed.

Lemma flag_perform_toggle f g w :
  flag_value g (exec (perform (Toggle f)) w) =
  if Flag_eqb f g then negb (flag_value g w) else flag_value g w.
Proof. destruct f, g; reflexivity. Qed.

Lemma rest_perform_toggle f w :
  let w' := exec (perform (Toggle f)) w in
  tv w' = tv w /\ ssd w' = ssd w /\ out w' = out w.
Proof. destruct f; repeat split. Qed.

Lemma Flag_eqb_eq f g : Flag_eqb f g = true <-> f = g.
Proof. destruct f, g; simpl; split; intros H; try reflexivity; discriminate. Qed.

Lemma list_app_one_neq {A} (l : list A) (x : A) : (l ++ [x])%list <> l.
Proof.
  intros H. apply (f_equal (@List.length A)) in H.
  rewrite length_app in H. simpl in H. lia.
Qed.

Lemma negb_fix (b : bool) : b <> negb b.
Proof. destruct b; discriminate. Qed.

Lemma fires_route c request w : fires c request w <-> route request = Some c.
Proof.
  unfold fires. rewrite exec_user_request.
  destruct w as [s co q b qi d t buf o].
  destruct (route request) as [[[]| |]|], c as [[]| |]; cbn; split; intros H;
    try reflexivity; try discriminate H;
    try (exfalso; revert H; apply negb_fix);
    try (exfalso; symmetry in H; revert H; apply list_app_one_neq);
    try (apply app_inv_head in H; discriminate H).
Qed.

Lemma find_chain_spec (m : Command -> bool) c :
  find m chain = Some c <->
  (m c = true /\ forall c', (rank c' < rank c)%nat -> m c' = false).
Proof.
  unfold chain. cbn [find].
  destruct (m (Toggle Sala)) eqn:E0;
  [|destruct (m (Toggle Cozinha)) eqn:E1;
  [|destruct (m (Toggle Quarto)) eqn:E2;
  [|destruct (m (Toggle Banheiro)) eqn:E3;
  [|destruct (m (Toggle Quintal)) eqn:E4;
  [|destruct (m (Toggle Display)) eqn:E5;
  [|destruct (m On) eqn:E6;
  [|destruct (m Off) eqn:E7]]]]]]].
  all: cbv iota; split;
    [ intros H;
      first
        [ discriminate H
        | injection H as <-; split;
          [ assumption
          | intros c' Hc'; destruct c' as [[]| |]; cbn in Hc'; solve [assumption | lia] ] ]
    | intros [Hm Hb]; destruct c as [[]| |]; try reflexivity; exfalso;
      first
        [ congruence
        | match goal with
          | E : _ ?d = true |- _ =>
              rewrite (Hb d) in E by (cbn; lia); discriminate E
          end ] ].
Qed.

Lemma route_spec request c :
  route request = Some c <->
  (matches request c = true /\
   forall c', (rank c' < rank c)%nat -> matches request c' = false).
Proof. apply find_chain_spec. Qed.

Lemma matches_true request c : matches request c = true <-> strstr request (needle c) <> None.
Proof. unfold matches. destruct (strstr request (needle c)); cbn; split; congruence. Qed.

Lemma matches_false request c : matches request c = false <-> strstr request (needle c) = None.
Proof. unfold matches. destruct (strstr request (needle c)); cbn; split; congruence. Qed.


Lemma temp_read_run adc_sample w :
  temp_read adc_sample w = (temperature_of adc_sample, exec (emit (AdcSelectInput 4)) w).
Proof. reflexivity. Qed.

Lemma temp_read_value adc_sample w : fst (temp_read adc_sample w) = temperature_of adc_sample.
Proof. reflexivity. Qed.

Lemma exec_bind {A B} (c : M A) (k : A -> M B) w :
  exec (bind c k) w = exec (k (fst (c w))) (exec c w).
Proof. unfold exec, bind. destruct (c w). reflexivity. Qed.

Lemma exec_temp_read adc_sample w :
  exec (temp_read adc_sample) w = exec (emit (AdcSelectInput 4)) w.
Proof. reflexivity. Qed.


(** ** C1: the matching policy *)

Lemma substring_match_counterexample :
  fires (Toggle Sala) embedded_request world0 /\
  request_path embedded_request = Some "/favicon.ico"%string /\
  exact_or_prefix_match embedded_request (Toggle Sala) = false /\
  ~ exact_or_prefix_policy.
Proof.
  assert (F : fires (Toggle Sala) embedded_request world0) by (vm_compute; reflexivity).
  assert (E : exact_or_prefix_match embedded_request (Toggle Sala) = false)
    by (vm_compute; reflexivity).
  split; [exact F|]. split; [vm_compute; reflexivity|]. split; [exact E|].
  intros P. rewrite (P _ _ _ F) in E. discriminate E.
Qed.

(** C1 (amended).  The router searches the whole request text for each
    command literal ["GET /<command>"]: command [c] takes effect exactly
    when its literal occurs somewhere in the request and no literal
    checked before it does.  A request that is exactly a command literal
    triggers that command. *)
Theorem command_fires_iff_first_substring_match :
  (forall request w c,
      fires c request w <->
      (strstr request (needle c) <> None /\
       forall c', (rank c' < rank c)%nat -> strstr request (needle c') = None)) /\
  (forall w c, fires c (needle c) w).
Proof.
  split.
  - intros request w c. rewrite fires_route, route_spec, matches_true.
    split; intros [Hm Hb]; (split; [exact Hm|]); intros c' Hc'.
    + apply matches_false; auto.
    + apply matches_false; auto.
  - intros w c. apply fires_route. destruct c as [[]| |]; vm_compute; reflexivity.
Qed.

(** ** C2: toggling twice *)

(** C2.  A toggle request flips its flag, and the same request routed a
    second time restores the flag's starting value. *)
Theorem toggle_twice_involution f rest w :
  strstr rest "GET /" = None ->
  let w1 := exec (user_request (toggle_request f rest)) w in
  let w2 := exec (user_request (toggle_request f rest)) w1 in
  flag_value f w1 = negb (flag_value f w) /\ flag_value f w2 = flag_value f w.
Proof.
  intros H w1 w2. subst w1 w2.
  rewrite !exec_user_request, (route_toggle_request _ _ H). cbn [perform_opt].
  rewrite !flag_perform_toggle.
  replace (Flag_eqb f f) with true by (destruct f; reflexivity).
  split; [reflexivity | apply negb_involutive].
Qed.

Lemma toggle_twice_involution_witness :
  strstr browser_tail "GET /" = None /\
  let w1 := exec (user_request (toggle_request Quarto browser_tail)) world0 in
  let w2 := exec (user_request (toggle_request Quarto browser_tail)) w1 in
  flag_value Quarto w1 = negb (flag_value Quarto world0) /\
  flag_value Quarto w2 = flag_value Quarto world0.
Proof.
  split; [vm_compute; reflexivity|].
  apply (toggle_twice_involution Quarto browser_tail world0).
  vm_compute; reflexivity.
Defined.

(** ** C3: frame of a toggle *)

Lemma toggle_frame_counterexample :
  request_path cozinha_request_with_sala_header = Some (toggle_path Cozinha) /\
  flag_value Sala world0 = false /\
  flag_value Sala (exec (user_request cozinha_request_with_sala_header) world0) = true /\
  flag_value Cozinha (exec (user_request cozinha_request_with_sala_header) world0) = false /\
  ~ toggle_frame_by_path.
Proof.
  assert (P : request_path cozinha_request_with_sala_header = Some (toggle_path Cozinha))
    by (vm_compute; reflexivity).
  assert (S1 : flag_value Sala (exec (user_request cozinha_request_with_sala_header) world0)
               = true) by (vm_compute; reflexivity).
  split; [exact P|]. split; [reflexivity|]. split; [exact S1|].
  split; [vm_compute; reflexivity|].
  intros F.
  assert (Hne : Sala <> Cozinha) by discriminate.
  rewrite (F _ Cozinha Sala world0 P Hne) in S1. discriminate S1.
Qed.

Lemma route_leading_toggle f rest :
  (forall c, (rank c < rank (Toggle f))%nat ->
             strstr (toggle_request f rest) (needle c) = None) ->
  route (toggle_request f rest) = Some (Toggle f).
Proof.
  intros H. apply route_spec. split.
  - unfold matches, strstr, toggle_request.
    change ("GET " ++ toggle_path f ++ rest)%string with (needle (Toggle f) ++ rest)%string.
    rewrite (c_str_app _ _ (c_str_needle _)), c_str_needle, find_sub_prefix. reflexivity.
  - intros c Hc. apply matches_false. now apply H.
Qed.

(** C3 (amended).  A request that begins with ["GET "] and a toggle path
    and contains the literal of no toggle checked before that one flips
    the flag of that path and leaves the other five flags as they were. *)
Theorem toggle_request_frame f rest w :
  (forall c, (rank c < rank (Toggle f))%nat ->
             strstr (toggle_request f rest) (needle c) = None) ->
  let w' := exec (user_request (toggle_request f rest)) w in
  flag_value f w' = negb (flag_value f w) /\
  forall g, g <> f -> flag_value g w' = flag_value g w.
Proof.
  intros H. cbv zeta.
  rewrite exec_user_request, (route_leading_toggle _ _ H). cbn [perform_opt].
  split.
  - rewrite flag_perform_toggle.
    replace (Flag_eqb f f) with true by (destruct f; reflexivity). reflexivity.
  - intros g Hg. rewrite flag_perform_toggle.
    destruct (Flag_eqb f g) eqn:E; [|reflexivity].
    apply Flag_eqb_eq in E. congruence.
Qed.

Lemma toggle_request_frame_witness :
  (forall c, (rank c < rank (Toggle Cozinha))%nat ->
             strstr (toggle_request Cozinha browser_tail) (needle c) = None) /\
  flag_value Sala (exec (user_request (toggle_request Cozinha browser_tail)) world0)
  = flag_value Sala world0.
Proof.
  assert (H : forall c, (rank c < rank (Toggle Cozinha))%nat ->
                        strstr (toggle_request Cozinha browser_tail) (needle c) = None).
  { intros c Hc. destruct c as [[]| |]; cbn in Hc; try lia. vm_compute. reflexivity. }
  split; [exact H|].
  apply (proj2 (toggle_request_frame Cozinha browser_tail world0 H) Sala). discriminate.
Defined.

(** ** C4: unrecognized requests *)

Lemma string_length_app a b : String.length (a ++ b) = (String.length a + String.length b)%nat.
Proof. induction a as [|c a IH]; cbn; [reflexivity | now rewrite IH]. Qed.

Lemma substring_all : forall s n, (String.length s <= n)%nat -> substring 0 n s = s.
Proof.
  induction s as [|c s IH]; intros n H.
  - destruct n; reflexivity.
  - destruct n as [|n]; cbn in H; [lia|]. cbn. rewrite IH by lia. reflexivity.
Qed.

Lemma substring_length_le : forall s n, (String.length (substring 0 n s) <= n)%nat.
Proof.
  induction s as [|c s IH]; intros n.
  - destruct n; cbn; lia.
  - destruct n as [|n]; cbn; [lia|]. specialize (IH n). lia.
Qed.

Lemma c_str_length_le s : (String.length (c_str s) <= String.length s)%nat.
Proof.
  induction s as [|c s IH]; cbn; [lia|].
  destruct (Ascii.eqb c NUL); cbn; lia.
Qed.

Lemma c_str_html_head : c_str html_head = html_head.
Proof. vm_compute. reflexivity. Qed.

Lemma c_str_html_tail : c_str html_tail = html_tail.
Proof. vm_compute. reflexivity. Qed.

Lemma html_fixed_length : (String.length html_head + String.length html_tail = 1054)%nat.
Proof. vm_compute. reflexivity. Qed.





(** ** C10: one action per call *)

(** C10.  A call of the router runs the branch of the first check that
    succeeds, in the order of [chain], and nothing else: the number of
    flags it changes plus the number of indicator writes it makes is at
    most one, and the display tracker and buffer are untouched. *)
Theorem at_most_one_action request w :
  let w' := exec (user_request request) w in
  w' = exec (perform_opt (find (matches request) chain)) w /\
  chain = [Toggle Sala; Toggle Cozinha; Toggle Quarto; Toggle Banheiro;
           Toggle Quintal; Toggle Display; On; Off] /\
  exists evs,
    out w' = (out w ++ evs)%list /\
    (flags_changed w w' + List.length evs <= 1)%nat /\
    tv w' = tv w /\ ssd w' = ssd w.
Proof.
  cbv zeta. rewrite exec_user_request. fold (route request).
  split; [reflexivity|]. split; [reflexivity|].
  destruct w as [s co q b qi d t buf o].
  destruct (route request) as [[[]| |]|]; cbn [perform_opt perform].
  1-6: exists []; rewrite app_nil_r;
       destruct s, co, q, b, qi, d; vm_compute; repeat split; lia.
  1-2: eexists [_]; destruct s, co, q, b, qi, d; vm_compute; repeat split; lia.
  exists []; rewrite app_nil_r; destruct s, co, q, b, qi, d; vm_compute; repeat split; lia.
Qed.

(** ** Renderers *)

Lemma exec_for_each_emit {A} (g : A -> Event) xs w :
  exec (for_each xs (fun x => emit (g x))) w = with_out w (out w ++ map g xs).
Proof.
  revert w. induction xs as [|x xs IH]; intros w.
  - destruct w. unfold with_out, exec. cbn. now rewrite app_nil_r.
  - change (exec (for_each (x :: xs) (fun x => emit (g x))) w)
      with (exec (for_each xs (fun x => emit (g x))) (exec (emit (g x)) w)).
    rewrite IH. destruct w. unfold with_out, exec. cbn. now rewrite <- app_assoc.
Qed.

Lemma ligar_luz_run w :
  exec ligar_luz w = with_out w (out w ++ map (fun i => PioPut (pixel_word w i)) (upto NUM_PIXELS)).
Proof.
  rewrite <- (exec_for_each_emit (fun i => PioPut (pixel_word w i))).
  destruct w as [s co q b qi d t buf o].
  unfold exec, ligar_luz, bind, read. cbv beta iota zeta.
  unfold pixel_word, pio_sm_put_blocking. cbv beta iota zeta.
  cbn [estado_led_sala estado_led_cozinha estado_led_quarto estado_led_banheiro
       estado_led_quintal].
  reflexivity.
Qed.

Lemma render_once_spec w b :
  let w' := render_once w b in
  out w' = (out w ++ display_events (tv w =? 1) b)%list /\
  tv w' = (if b then 1 else if tv w =? 1 then 0 else tv w) /\
  estado_display w' = b.
Proof.
  destruct w as [s co q bb qi d t buf o]. unfold render_once.
  destruct b; cbv -[Z.eqb app].
  - split; [reflexivity | split; reflexivity].
  - destruct (t =? 1); (split; [|split; reflexivity]).
    + rewrite <- !app_assoc. reflexivity.
    + now rewrite app_nil_r.
Qed.

Lemma run_display_trace flags : forall prev w,
  (tv w =? 1) = prev ->
  out (run_display flags w) = (out w ++ trace_of prev flags)%list.
Proof.
  induction flags as [|b bs IH]; intros prev w Hp.
  - cbn. now rewrite app_nil_r.
  - change (run_display (b :: bs) w) with (run_display bs (render_once w b)).
    destruct (render_once_spec w b) as (Ho & Ht & _).
    assert (Hb : (tv (render_once w b) =? 1) = b).
    { rewrite Ht. destruct b; [reflexivity|]. now destruct (tv w =? 1) eqn:E. }
    rewrite (IH b _ Hb), Ho, Hp, <- app_assoc. reflexivity.
Qed.

Lemma count_shown_app text a b :
  count_shown text (a ++ b) = (count_shown text a + count_shown text b)%nat.
Proof. unfold count_shown. now rewrite filter_app, length_app. Qed.

Lemma trace_counts flags : forall prev,
  count_shown "DESLIGADA" (trace_of prev flags) = falling_edges prev flags /\
  count_shown "LIGADA" (trace_of prev flags) = count_occ Bool.bool_dec flags true.
Proof.
  induction flags as [|b bs IH]; intros prev; [split; reflexivity|].
  cbn [trace_of falling_edges]. rewrite !count_shown_app.
  destruct (IH b) as [-> ->]. destruct prev, b; split; reflexivity.
Qed.

Lemma trace_of_false_tail n : trace_of false (repeat false n) = [].
Proof. induction n; [reflexivity|]. cbn. exact IHn. Qed.

(** ** C5: the display transition *)

(** C5.  Starting with the tracker clear, the flag sequence false, true,
    false makes the renderer send one ON frame, then one OFF frame, hold
    it, and send a blank frame; further renders with the flag false send
    nothing.  In any run the number of OFF frames sent equals the number
    of true-to-false edges of the flag, and the number of ON frames the
    number of renders with the flag true. *)
Theorem display_transition w :
  tv w = 0 ->
  out (run_display [false; true; false] w)
  = (out w ++ [OledSend on_frame; OledSend off_frame; SleepMs 2000; OledSend blank_frame])%list /\
  (forall n,
      out (run_display ([false; true; false] ++ repeat false n) w)
      = out (run_display [false; true; false] w)) /\
  (forall flags, exists tr,
      out (run_display flags w) = (out w ++ tr)%list /\
      count_shown "DESLIGADA" tr = falling_edges false flags /\
      count_shown "LIGADA" tr = count_occ Bool.bool_dec flags true).
Proof.
  intros Ht.
  assert (Hp : (tv w =? 1) = false) by now rewrite Ht.
  split; [|split].
  - now rewrite (run_display_trace [false; true; false] false w Hp).
  - intros n.
    rewrite (run_display_trace ([false; true; false] ++ repeat false n) false w Hp).
    rewrite (run_display_trace [false; true; false] false w Hp).
    cbn. now rewrite trace_of_false_tail.
  - intros flags. exists (trace_of false flags).
    rewrite (run_display_trace flags false w Hp).
    split; [reflexivity|]. apply trace_counts.
Qed.

Lemma display_transition_witness :
  tv world0 = 0 /\
  out (run_display [false; true; false] world0)
  = [OledSend on_frame; OledSend off_frame; SleepMs 2000; OledSend blank_frame].
Proof.
  split; [reflexivity|].
  exact (proj1 (display_transition world0 eq_refl)).
Defined.

(** ** C6: the display tracker *)

(** C6.  After every call of the display renderer, [tv] is 1 exactly when
    the display flag was true during that call; the call does not change
    the flag. *)
Theorem tv_tracks_rendered_display w :
  let w' := exec ligar_display w in
  (tv w' = 1 <-> estado_display w = true) /\ estado_display w' = estado_display w.
Proof.
  destruct w as [s co q b qi d t buf o]. destruct d; cbv -[Z.eqb app].
  - split; [split; reflexivity | reflexivity].
  - destruct (t =? 1) eqn:E; (split; [split; intros H; try discriminate H | reflexivity]).
    apply Z.eqb_neq in E. contradiction.
Qed.

(** ** C7: the LED matrix *)

(** C7.  With exactly one room flag set, one render of the matrix pushes
    25 words in row-major order: the five cells of the row of that flag
    carry the ON colour, the other twenty are black. *)
Theorem led_matrix_single_room w f r :
  row_of f = Some r ->
  flag_value f w = true ->
  (forall g, g <> f -> g <> Display -> flag_value g w = false) ->
  exists pixels,
    out (exec ligar_luz w) = (out w ++ map PioPut pixels)%list /\
    List.length pixels = 25%nat /\
    (forall i, 0 <= i < 25 ->
       nth (Z.to_nat i) pixels 0 = if i / 5 =? r then 0xFFFFFF00 else 0) /\
    count_occ Z.eq_dec pixels 0xFFFFFF00 = 5%nat /\
    count_occ Z.eq_dec pixels 0 = 20%nat.
Proof.
  intros Hr Hf Hg.
  exists (map (pixel_word w) (upto NUM_PIXELS)).
  rewrite ligar_luz_run. split; [cbn; now rewrite map_map|].
  assert (Hs := Hg Sala). assert (Hc := Hg Cozinha). assert (Hq := Hg Quarto).
  assert (Hb := Hg Banheiro). assert (Hqi := Hg Quintal).
  destruct w as [s co q b qi d t buf o].
  assert (In_range : forall i, 0 <= i < 25 ->
            In i [0;1;2;3;4;5;6;7;8;9;10;11;12;13;14;15;16;17;18;19;20;21;22;23;24]).
  { intros i Hi. cbn. lia. }
  destruct f; cbn in *; try discriminate Hr; injection Hr as <-; subst;
    [ rewrite Hc, Hq, Hb, Hqi by discriminate
    | rewrite Hs, Hq, Hb, Hqi by discriminate
    | rewrite Hs, Hc, Hb, Hqi by discriminate
    | rewrite Hs, Hc, Hq, Hqi by discriminate
    | rewrite Hs, Hc, Hq, Hb by discriminate ].
  all: split; [reflexivity|]; split; [|split; reflexivity].
  all: intros i Hi; apply In_range in Hi; cbn in Hi;
       repeat (destruct Hi as [<-|Hi]; [reflexivity|]); contradiction.
Qed.

Lemma led_matrix_single_room_witness :
  let w := exec (perform (Toggle Quarto)) world0 in
  row_of Quarto = Some 2 /\ flag_value Quarto w = true /\
  exists pixels,
    out (exec ligar_luz w) = (out w ++ map PioPut pixels)%list /\
    List.length pixels = 25%nat /\
    (forall i, 0 <= i < 25 ->
       nth (Z.to_nat i) pixels 0 = if i / 5 =? 2 then 0xFFFFFF00 else 0) /\
    count_occ Z.eq_dec pixels 0xFFFFFF00 = 5%nat /\
    count_occ Z.eq_dec pixels 0 = 20%nat.
Proof.
  split; [reflexivity|]. split; [reflexivity|].
  apply (led_matrix_single_room (exec (perform (Toggle Quarto)) world0) Quarto 2).
  - reflexivity.
  - reflexivity.
  - intros g Hg Hd. destruct g; try reflexivity; contradiction.
Defined.

(** ** Timer difference *)

(** [absolute_time_diff_us] always yields an [int64_t] congruent to the
    difference of the two timer values modulo 2^64, and the difference
    itself whenever that fits in an [int64_t]. *)
Lemma absolute_time_diff_us_exact from to :
  let d := absolute_time_diff_us from to in
  - 2 ^ 63 <= d < 2 ^ 63 /\
  (d - (to - from)) mod 2 ^ 64 = 0 /\
  (- 2 ^ 63 <= to - from < 2 ^ 63 -> d = to - from).
Proof.
  cbv zeta. unfold absolute_time_diff_us, to_int64.
  set (z := to - from). clearbody z.
  pose proof (Z.mod_pos_bound z (2 ^ 64) ltac:(lia)) as B.
  pose proof (Z.div_mod z (2 ^ 64) ltac:(lia)) as D.
  destruct (z mod 2 ^ 64 <? 2 ^ 63) eqn:E;
    [apply Z.ltb_lt in E | apply Z.ltb_ge in E].
  - split; [lia|]. split.
    + replace (z mod 2 ^ 64 - z) with (- (z / 2 ^ 64) * 2 ^ 64) by lia.
      apply Z.mod_mul. lia.
    + intros R. assert (z / 2 ^ 64 = 0) by nia. lia.
  - split; [lia|]. split.
    + replace (z mod 2 ^ 64 - 2 ^ 64 - z) with ((- (z / 2 ^ 64) - 1) * 2 ^ 64) by lia.
      apply Z.mod_mul. lia.
    + intros R. assert (z / 2 ^ 64 = -1) by nia. lia.
Qed.

Lemma time_diff_small from to :
  - 2 ^ 63 <= to - from < 2 ^ 63 -> absolute_time_diff_us from to = to - from.
Proof.
  intros R. unfold absolute_time_diff_us, to_int64.
  set (z := to - from) in *. clearbody z.
  pose proof (Z.mod_pos_bound z (2 ^ 64) ltac:(lia)) as B.
  pose proof (Z.div_mod z (2 ^ 64) ltac:(lia)) as D.
  destruct (z mod 2 ^ 64 <? 2 ^ 63) eqn:E;
    [apply Z.ltb_lt in E; assert (z / 2 ^ 64 = 0) by nia
    |apply Z.ltb_ge in E; assert (z / 2 ^ 64 = -1) by nia]; lia.
Qed.

Lemma pulse_cm_checked : forallb pulse_cm_close (upto 4096) = true.
Proof. vm_compute. reflexivity. Qed.

Lemma In_upto n i : 0 <= i < n -> In i (upto n).
Proof.
  intros H. unfold upto. apply in_map_iff. exists (Z.to_nat i).
  split; [lia|]. apply in_seq. lia.
Qed.

Lemma pulse_cm_accurate pulse :
  0 <= pulse < 4096 ->
  is_finite (pulse_to_cm pulse) = true /\
  (Qabs (SF2Q (pulse_to_cm pulse) - inject_Z pulse / 58) <= 1 # 100000)%Q.
Proof.
  intros H.
  pose proof (proj1 (forallb_forall _ _) pulse_cm_checked pulse (In_upto _ _ H)) as T.
  unfold pulse_cm_close in T. apply andb_true_iff in T as [F T].
  split; [exact F | now apply Qle_bool_iff].
Qed.

(** ** Ultrasonic ranging *)

Section RangingFacts.
Variable echo : nat -> bool.
Variable time_us : nat -> Z.

Lemma wait_while_exit level : forall fuel k k',
  wait_while echo level fuel k = Some k' ->
  (k < k')%nat /\ echo (pred k') = negb level /\
  forall j, (k <= j < pred k')%nat -> echo j = level.
Proof.
  induction fuel as [|fuel IH]; intros k k' H; [discriminate H|].
  cbn in H. destruct (Bool.eqb (echo k) level) eqn:E.
  - apply IH in H as (Hlt & Hx & Hall).
    split; [lia|]. split; [exact Hx|].
    intros j Hj. destruct (Nat.eq_dec j k) as [->|Hne].
    + now apply eqb_prop.
    + apply Hall. lia.
  - injection H as <-. cbn. split; [lia|]. split.
    + destruct (echo k), level; try discriminate E; reflexivity.
    + intros j Hj. lia.
Qed.

Lemma wait_while_enough level : forall fuel k i,
  (k <= i)%nat -> echo i = negb level -> (i - k < fuel)%nat ->
  exists k', wait_while echo level fuel k = Some k' /\ (k' <= S i)%nat.
Proof.
  induction fuel as [|fuel IH]; intros k i Hk Hi Hf; [lia|].
  cbn. destruct (Bool.eqb (echo k) level) eqn:E.
  - destruct (Nat.eq_dec k i) as [->|Hne].
    + apply eqb_prop in E. rewrite E in Hi. now destruct level.
    + destruct (IH (S k) i) as (k' & Hw & Hle); try lia; [exact Hi|].
      exists k'. split; [exact Hw | exact Hle].
  - exists (S k). split; [reflexivity | lia].
Qed.

Lemma wait_while_stuck level : forall fuel k,
  (forall j, (k <= j)%nat -> echo j = level) -> wait_while echo level fuel k = None.
Proof.
  induction fuel as [|fuel IH]; intros k H; [reflexivity|].
  cbn. rewrite (H k) by lia. rewrite eqb_reflx. apply IH. intros j Hj. apply H. lia.
Qed.

Lemma measure_result fuel k w :
  fst (measure_distance_cm echo time_us fuel k w) =
  match wait_while echo false fuel k with
  | None => None
  | Some k1 =>
      match wait_while echo true fuel k1 with
      | None => None
      | Some k2 =>
          let pulse := absolute_time_diff_us (time_us k1) (time_us k2) in
          Some (mkReading pulse (pulse_to_cm pulse) k2)
      end
  end.
Proof.
  unfold measure_distance_cm, bind.
  destruct (send_trigger_pulse w) as [u w1].
  destruct (wait_while echo false fuel k) as [k1|]; [|reflexivity].
  destruct (wait_while echo true fuel k1); reflexivity.
Qed.

Lemma measure_reading fuel k w r :
  fst (measure_distance_cm echo time_us fuel k w) = Some r ->
  exists i j,
    (k <= i < j)%nat /\
    echo i = true /\ (forall n, (k <= n < i)%nat -> echo n = false) /\
    echo j = false /\ (forall n, (i < n < j)%nat -> echo n = true) /\
    reads_done r = S j /\
    pulse_duration r = absolute_time_diff_us (time_us (S i)) (time_us (S j)) /\
    (let elapsed := time_us (S j) - time_us (S i) in
     - 2 ^ 63 <= pulse_duration r < 2 ^ 63 /\
     (pulse_duration r - elapsed) mod 2 ^ 64 = 0 /\
     (- 2 ^ 63 <= elapsed < 2 ^ 63 -> pulse_duration r = elapsed)) /\
    distance_cm r = F64.to_f32 (F64.div (F64.of_Z (pulse_duration r)) (F64.of_Z 58)) /\
    (0 <= pulse_duration r < 4096 ->
     is_finite (distance_cm r) = true /\
     (Qabs (SF2Q (distance_cm r) - inject_Z (pulse_duration r) / 58) <= 1 # 100000)%Q).
Proof.
  intros H. rewrite measure_result in H.
  destruct (wait_while echo false fuel k) as [k1|] eqn:W1; [|discriminate H].
  destruct (wait_while echo true fuel k1) as [k2|] eqn:W2; [|discriminate H].
  injection H as <-. cbn [pulse_duration distance_cm reads_done].
  apply wait_while_exit in W1 as (L1 & X1 & A1).
  apply wait_while_exit in W2 as (L2 & X2 & A2).
  exists (pred k1), (pred k2).
  replace (S (pred k1)) with k1 by lia. replace (S (pred k2)) with k2 by lia.
  split; [lia|]. split; [exact X1|]. split; [exact A1|]. split; [exact X2|].
  split; [intros n Hn; apply A2; lia|].
  split; [reflexivity|]. split; [reflexivity|].
  split; [apply absolute_time_diff_us_exact|].
  split; [reflexivity|]. apply pulse_cm_accurate.
Qed.

(** C8.  The measurement returns for some bound on the number of polls
    exactly when the echo line is read high and later read low.  When
    it returns, the pulse is the timer value at the first low sample
    after the first high sample minus the timer value at that high
    sample, as an [int64_t]: the difference itself whenever it fits, and
    congruent to it modulo 2^64 in any case.  The distance is that
    number of microseconds divided by 58.0 in double precision and
    stored in a float, which for pulses below 4096 microseconds is
    within 0.00001 cm of the exact quotient.  When the line never makes
    the transition no bound suffices: the function has no timeout. *)
Theorem measure_distance_cm_terminates_iff k w :
  ((exists fuel r, fst (measure_distance_cm echo time_us fuel k w) = Some r)
   <-> rises_then_falls echo k) /\
  (forall fuel r,
      fst (measure_distance_cm echo time_us fuel k w) = Some r ->
      exists i j,
        (k <= i < j)%nat /\
        echo i = true /\ (forall n, (k <= n < i)%nat -> echo n = false) /\
        echo j = false /\ (forall n, (i < n < j)%nat -> echo n = true) /\
        reads_done r = S j /\
        pulse_duration r = absolute_time_diff_us (time_us (S i)) (time_us (S j)) /\
        (let elapsed := time_us (S j) - time_us (S i) in
         - 2 ^ 63 <= pulse_duration r < 2 ^ 63 /\
         (pulse_duration r - elapsed) mod 2 ^ 64 = 0 /\
         (- 2 ^ 63 <= elapsed < 2 ^ 63 -> pulse_duration r = elapsed)) /\
        distance_cm r = F64.to_f32 (F64.div (F64.of_Z (pulse_duration r)) (F64.of_Z 58)) /\
        (0 <= pulse_duration r < 4096 ->
         is_finite (distance_cm r) = true /\
         (Qabs (SF2Q (distance_cm r) - inject_Z (pulse_duration r) / 58) <= 1 # 100000)%Q)) /\
  (~ rises_then_falls echo k ->
   forall fuel, fst (measure_distance_cm echo time_us fuel k w) = None).
Proof.
  assert (Fwd : (exists fuel r, fst (measure_distance_cm echo time_us fuel k w) = Some r)
                -> rises_then_falls echo k).
  { intros (fuel & r & H).
    destruct (measure_reading _ _ _ _ H) as (i & j & Hij & Hi & _ & Hj & _).
    exists i, j. split; [exact Hij|]. split; assumption. }
  split; [split; [exact Fwd|]|split].
  - intros (i & j & Hij & Hi & Hj).
    destruct (wait_while_enough false (S j) k i) as (k1 & W1 & B1);
      [lia | exact Hi | lia |].
    destruct (wait_while_enough true (S j) k1 j) as (k2 & W2 & B2);
      [lia | exact Hj | lia |].
    exists (S j). eexists. rewrite measure_result, W1, W2. reflexivity.
  - intros fuel r H. exact (measure_reading _ _ _ _ H).
  - intros Hn fuel.
    destruct (fst (measure_distance_cm echo time_us fuel k w)) as [r|] eqn:E;
      [|reflexivity].
    exfalso. apply Hn, Fwd. now exists fuel, r.
Qed.

End RangingFacts.

(** ** C9: temperature *)

Lemma all_samples_within_tolerance : forallb temp_within_tolerance (upto 4096) = true.
Proof. vm_compute. reflexivity. Qed.

(** C9.  For every 12-bit sample the temperature returned by
    [temp_read] is finite and differs from
    27 - ((raw * 3.3 / 4096) - 0.706) / 0.001721 by at most 0.01. *)
Theorem temp_read_matches_formula raw w :
  0 <= raw < 4096 ->
  is_finite (fst (temp_read raw w)) = true /\
  (Qabs (SF2Q (fst (temp_read raw w)) - temperature_formula raw) <= 1 # 100)%Q.
Proof.
  intros H. rewrite temp_read_value.
  pose proof (proj1 (forallb_forall _ _) all_samples_within_tolerance raw (In_upto _ _ H)) as T.
  unfold temp_within_tolerance in T. apply andb_true_iff in T as [F T].
  split; [exact F|]. now apply Qle_bool_iff.
Qed.

Lemma temp_read_matches_formula_witness :
  0 <= 2048 < 4096 /\
  (Qabs (SF2Q (fst (temp_read 2048 world0)) - temperature_formula 2048) <= 1 # 100)%Q.
Proof.
  split; [lia|].
  apply (temp_read_matches_formula 2048 world0). lia.
Defined.

(** * Further properties of the code *)

(** ** Router *)

Lemma flag_perform_opt_indicator f w c :
  c = On \/ c = Off -> flag_value f (exec (perform c) w) = flag_value f w.
Proof. intros [-> | ->]; destruct f; reflexivity. Qed.

Lemma flag_after_request f request w :
  flag_value f (exec (user_request request) w)
  = xorb (flag_value f w) (routed_to f request).
Proof.
  rewrite exec_user_request. unfold routed_to.
  destruct (route request) as [[g| |]|]; cbn [perform_opt].
  - rewrite flag_perform_toggle.
    replace (Flag_eqb g f) with (Flag_eqb f g) by (destruct f, g; reflexivity).
    destruct (Flag_eqb f g), (flag_value f w); reflexivity.
  - rewrite flag_perform_opt_indicator by (left; reflexivity).
    now rewrite xorb_false_r.
  - rewrite flag_perform_opt_indicator by (right; reflexivity).
    now rewrite xorb_false_r.
  - now rewrite xorb_false_r.
Qed.

(** After any sequence of requests, a flag differs from its starting
    value exactly when an odd number of the requests were routed to its
    toggle. *)
Theorem flags_after_requests rs : forall w f,
  flag_value f (run_requests rs w)
  = xorb (flag_value f w) (Nat.odd (toggles_of f rs)).
Proof.
  induction rs as [|r rs IH]; intros w f.
  - cbn. now rewrite xorb_false_r.
  - change (run_requests (r :: rs) w) with (run_requests rs (exec (user_request r) w)).
    rewrite IH, flag_after_request. unfold toggles_of. cbn [filter].
    destruct (routed_to f r); cbn [List.length].
    + rewrite Nat.odd_succ, <- Nat.negb_odd.
      destruct (flag_value f w), (Nat.odd (List.length (filter (routed_to f) rs))); reflexivity.
    + now rewrite xorb_false_r.
Qed.

(** The order in which requests arrive does not matter for the flags. *)
Theorem flags_order_irrelevant rs rs' w f :
  Permutation rs rs' ->
  flag_value f (run_requests rs w) = flag_value f (run_requests rs' w).
Proof.
  intros P. rewrite !flags_after_requests. unfold toggles_of.
  assert (L : forall (p : string -> bool) a b, Permutation a b ->
                List.length (filter p a) = List.length (filter p b)).
  { intros p a b Pab. induction Pab; cbn.
    - reflexivity.
    - destruct (p x); cbn; now rewrite IHPab.
    - destruct (p x), (p y); reflexivity.
    - congruence. }
  now rewrite (L _ _ _ P).
Qed.

Lemma flags_order_irrelevant_witness :
  Permutation [toggle_request Sala browser_tail; toggle_request Display browser_tail]
              [toggle_request Display browser_tail; toggle_request Sala browser_tail] /\
  flag_value Sala
    (run_requests [toggle_request Sala browser_tail; toggle_request Display browser_tail] world0)
  = flag_value Sala
    (run_requests [toggle_request Display browser_tail; toggle_request Sala browser_tail] world0).
Proof.
  split; [apply perm_swap|].
  apply (flags_order_irrelevant _ _ world0 Sala). apply perm_swap.
Defined.

Lemma no_hit_needles c d : Command_eqb c d = false -> no_hit (needle c) (needle d) = true.
Proof.
  destruct c as [[]| |], d as [[]| |]; intros E; try discriminate E; vm_compute; reflexivity.
Qed.

(** A request that begins with the literal of a command and contains no
    further ["GET /"] runs that command, whatever follows the literal:
    the path only has to start with the command's path. *)
Theorem prefix_request_routes c rest w :
  strstr rest "GET /" = None ->
  route (needle c ++ rest) = Some c /\ fires c (needle c ++ rest) w.
Proof.
  intros H.
  assert (R : route (needle c ++ rest) = Some c).
  { unfold strstr in H. change (c_str "GET /") with "GET /"%string in H.
    apply route_spec. unfold matches, strstr.
    rewrite (c_str_app _ _ (c_str_needle c)). split.
    - now rewrite c_str_needle, find_sub_prefix.
    - intros c' Hc'. rewrite c_str_needle, find_sub_skip.
      + now rewrite (find_sub_none_longer _ _ _ (needle_GET c') H).
      + apply no_hit_needles. unfold Command_eqb. apply Nat.eqb_neq. lia. }
  split; [exact R|]. now apply fires_route.
Qed.

Lemma prefix_request_routes_witness :
  strstr "line HTTP/1.1" "GET /" = None /\
  route ("GET /on" ++ "line HTTP/1.1") = Some On.
Proof.
  split; [vm_compute; reflexivity|].
  exact (proj1 (prefix_request_routes On "line HTTP/1.1" world0 eq_refl)).
Defined.

Lemma c_str_app_nul a b : c_str (a ++ String NUL b) = c_str a.
Proof.
  induction a as [|c a IH]; [reflexivity|].
  cbn [append c_str]. destruct (Ascii.eqb c NUL); [reflexivity|]. now rewrite IH.
Qed.

(** The router reads the request as a C string: whatever follows the
    first NUL byte of the payload has no effect. *)
Theorem bytes_after_nul_ignored a b w :
  user_request (a ++ String NUL b) w = user_request a w.
Proof.
  assert (S : forall n, strstr (a ++ String NUL b) n = strstr a n).
  { intros n. unfold strstr. now rewrite c_str_app_nul. }
  unfold user_request. rewrite !S. reflexivity.
Qed.

(** ** TCP receive callback *)

(** The response never exceeds the 2047 characters that fit the buffer,
    and whenever the rendered temperature has at most 993 characters and
    no NUL byte the whole document is sent, from the status line to the
    closing tag. *)
Theorem status_page_complete printf_2f t :
  (String.length (c_str (status_page printf_2f t)) <= 2047)%nat /\
  ((String.length (printf_2f t) <= 993)%nat ->
   c_str (printf_2f t) = printf_2f t ->
   c_str (status_page printf_2f t) = (html_head ++ printf_2f t ++ html_tail)%string).
Proof.
  unfold status_page, snprintf_trunc. change (2048 - 1)%nat with 2047%nat. split.
  - etransitivity; [apply c_str_length_le | apply substring_length_le].
  - intros L N. rewrite substring_all.
    + rewrite (c_str_app _ _ c_str_html_head), (c_str_app _ _ N), c_str_html_tail.
      reflexivity.
    + rewrite !string_length_app. pose proof html_fixed_length. lia.
Qed.

Lemma status_page_complete_witness :
  (String.length "27.14" <= 993)%nat /\
  c_str (status_page (fun _ => "27.14"%string) (temperature_of 876))
  = (html_head ++ "27.14" ++ html_tail)%string.
Proof.
  split; [cbn; lia|].
  apply (proj2 (status_page_complete (fun _ => "27.14"%string) (temperature_of 876)));
    [cbn; lia | reflexivity].
Defined.

Lemma user_request_effect request w :
  let w' := exec (user_request request) w in
  tv w' = tv w /\ ssd w' = ssd w /\
  exists evs, out w' = (out w ++ evs)%list /\
              (evs = [] \/ exists v, evs = [Cyw43GpioPut LED_PIN v]).
Proof.
  cbv zeta. rewrite exec_user_request.
  destruct w as [s co q b qi d t buf o].
  destruct (route request) as [[[]| |]|]; cbn; (split; [reflexivity|]); (split; [reflexivity|]).
  1-6,9: exists []; rewrite app_nil_r; split; [reflexivity | left; reflexivity].
  - eexists; split; [reflexivity | right; eexists; reflexivity].
  - eexists; split; [reflexivity | right; eexists; reflexivity].
Qed.

(** A null buffer only tears the connection down.  A payload is logged,
    routed once, and answered by exactly one write of the status page,
    after which the request copy and the buffer are released; the page
    depends on the ADC sample alone, not on the request or on the flags.
    The callback never touches the display tracker or buffer. *)
Theorem tcp_server_recv_effect printf_2f p adc_sample w :
  let w' := exec (tcp_server_recv printf_2f p adc_sample) w in
  tv w' = tv w /\ ssd w' = ssd w /\
  match p with
  | None =>
      out w' = (out w ++ [TcpClose; TcpRecvNull])%list /\
      forall f, flag_value f w' = flag_value f w
  | Some request =>
      (forall f, flag_value f w' = flag_value f (exec (user_request request) w)) /\
      exists evs,
        out w' = (out w ++ Printf ("Request: " ++ c_str request ++ NL) :: evs ++
                  [AdcSelectInput 4;
                   TcpWrite (c_str (status_page printf_2f (temperature_of adc_sample)));
                   TcpOutput; Free; PbufFree])%list /\
        (evs = [] \/ exists v, evs = [Cyw43GpioPut LED_PIN v])
  end.
Proof.
  destruct p as [request|].
  - cbv zeta. unfold tcp_server_recv.
    repeat (rewrite exec_bind; cbv beta).
    rewrite temp_read_value, exec_temp_read, !exec_user_request.
    destruct w as [s co q b qi d t buf o].
    destruct (route request) as [[[]| |]|];
      cbn -[status_page c_str append temperature_of];
      (split; [reflexivity|]); (split; [reflexivity|]);
      (split; [intros []; reflexivity|]).
    1-6,9: exists []; split; [rewrite <- !app_assoc; reflexivity | left; reflexivity].
    + eexists [_]; split; [rewrite <- !app_assoc; reflexivity | right; eexists; reflexivity].
    + eexists [_]; split; [rewrite <- !app_assoc; reflexivity | right; eexists; reflexivity].
  - destruct w as [s co q b qi d t buf o]. cbn.
    split; [reflexivity|]. split; [reflexivity|].
    split; [now rewrite <- app_assoc | intros []; reflexivity].
Qed.

(** ** LED matrix and its composition with the router *)

Lemma small_index i : 0 <= i < 5 -> i = 0 \/ i = 1 \/ i = 2 \/ i = 3 \/ i = 4.
Proof. lia. Qed.

(** In every state one render pushes 25 words and changes nothing else;
    the five cells of a room's row carry the ON colour exactly when that
    room's flag is set, so the number of lit cells is five times the
    number of rooms that are on. The display flag plays no part. *)
Theorem led_matrix_projection w :
  exists pixels,
    exec ligar_luz w = with_out w (out w ++ map PioPut pixels) /\
    List.length pixels = 25%nat /\
    (forall f r i, row_of f = Some r -> 0 <= i < 5 ->
       nth (Z.to_nat (5 * r + i)) pixels 0
       = if flag_value f w then 0xFFFFFF00 else 0) /\
    count_occ Z.eq_dec pixels 0xFFFFFF00 = (5 * rooms_on w)%nat.
Proof.
  exists (map (pixel_word w) (upto NUM_PIXELS)).
  rewrite ligar_luz_run, map_map.
  split; [reflexivity|].
  destruct w as [s co q b qi d t buf o].
  split; [reflexivity|]. split.
  - intros f r i Hr Hi. apply small_index in Hi.
    destruct f; try discriminate Hr; injection Hr as <-;
      destruct Hi as [-> | [-> | [-> | [-> | ->]]]];
      cbn [flag_value estado_led_sala estado_led_cozinha estado_led_quarto
           estado_led_banheiro estado_led_quintal];
      reflexivity.
  - destruct s, co, q, b, qi; vm_compute; reflexivity.
Qed.

Lemma ligar_luz_pixels w :
  out (exec ligar_luz w) = (out w ++ map PioPut (map (pixel_word w) (upto NUM_PIXELS)))%list.
Proof. rewrite ligar_luz_run, map_map. reflexivity. Qed.





(** ** Ranging: the measured pulse *)

Section PulseFacts.
Variable echo : nat -> bool.
Variable time_us : nat -> Z.

(** Every call of the measurement sends one trigger pulse of 10
    microseconds before it waits, and changes nothing else. *)
Lemma measure_run fuel k w :
  exec (measure_distance_cm echo time_us fuel k) w
  = with_out w (out w ++ [GpioPut TRIG_PIN true; SleepUs 10; GpioPut TRIG_PIN false]).
Proof.
  unfold measure_distance_cm. rewrite exec_bind.
  destruct w as [s co q b qi d t buf o].
  destruct (wait_while echo false fuel k) as [k1|];
    [destruct (wait_while echo true fuel k1)|];
    cbv -[app]; now rewrite <- !app_assoc.
Qed.

(** With a timer that never runs backwards and stays below 2^63, the
    pulse returned by a measurement is the time from the first sample
    read high to the first sample read low after it, a non-negative
    number of microseconds: the polls spent waiting for the rising edge
    are not counted. *)
Theorem measured_pulse_nonnegative fuel k w r :
  (forall a b, (a <= b)%nat -> time_us a <= time_us b) ->
  (forall a, 0 <= time_us a < 2 ^ 63) ->
  fst (measure_distance_cm echo time_us fuel k w) = Some r ->
  exists i j,
    (k <= i < j)%nat /\
    echo i = true /\ (forall n, (k <= n < i)%nat -> echo n = false) /\
    echo j = false /\ (forall n, (i < n < j)%nat -> echo n = true) /\
    reads_done r = S j /\
    pulse_duration r = time_us (S j) - time_us (S i) /\
    0 <= pulse_duration r.
Proof.
  intros Mono Bound H. rewrite measure_result in H.
  destruct (wait_while echo false fuel k) as [k1|] eqn:W1; [|discriminate H].
  destruct (wait_while echo true fuel k1) as [k2|] eqn:W2; [|discriminate H].
  injection H as <-. cbn [pulse_duration reads_done].
  apply wait_while_exit in W1 as (L1 & X1 & A1).
  apply wait_while_exit in W2 as (L2 & X2 & A2).
  pose proof (Mono k1 k2 ltac:(lia)) as M.
  pose proof (Bound k1) as B1. pose proof (Bound k2) as B2.
  rewrite time_diff_small by lia.
  exists (pred k1), (pred k2).
  replace (S (pred k1)) with k1 by lia. replace (S (pred k2)) with k2 by lia.
  split; [lia|]. split; [exact X1|]. split; [exact A1|]. split; [exact X2|].
  split; [intros n Hn; apply A2; lia|].
  split; [reflexivity|]. split; [reflexivity | lia].
Qed.

End PulseFacts.

Lemma measured_pulse_nonnegative_witness :
  fst (measure_distance_cm echo_pulse bounded_clock 10 0 world0)
  = Some (mkReading 580 (pulse_to_cm 580) 8) /\
  exists i j,
    (0 <= i < j)%nat /\
    echo_pulse i = true /\ (forall n, (0 <= n < i)%nat -> echo_pulse n = false) /\
    echo_pulse j = false /\ (forall n, (i < n < j)%nat -> echo_pulse n = true) /\
    reads_done (mkReading 580 (pulse_to_cm 580) 8) = S j /\
    pulse_duration (mkReading 580 (pulse_to_cm 580) 8)
    = bounded_clock (S j) - bounded_clock (S i) /\
    0 <= pulse_duration (mkReading 580 (pulse_to_cm 580) 8).
Proof.
  assert (H : fst (measure_distance_cm echo_pulse bounded_clock 10 0 world0)
              = Some (mkReading 580 (pulse_to_cm 580) 8)) by (vm_compute; reflexivity).
  split; [exact H|].
  refine (measured_pulse_nonnegative echo_pulse bounded_clock 10 0 world0 _ _ _ H).
  - intros a b Hab. unfold bounded_clock. lia.
  - intros a. unfold bounded_clock. lia.
Defined.

(** ** Front lights *)

Lemma near_threshold_checked : forallb near_agrees (upto 4096) = true.
Proof. vm_compute. reflexivity. Qed.

Lemma near_threshold pulse :
  0 <= pulse < 4096 ->
  F32.ltb (pulse_to_cm pulse) (F32.of_Z 15) = (pulse <? 870).
Proof.
  intros H.
  pose proof (proj1 (forallb_forall _ _) near_threshold_checked pulse (In_upto _ _ H)) as T.
  unfold near_agrees in T. now apply eqb_prop in T.
Qed.

Lemma fst_bind {A B} (c : M A) (k : A -> M B) w :
  fst (bind c k w) = fst (k (fst (c w)) (exec c w)).
Proof. unfold exec, bind. destruct (c w). reflexivity. Qed.

Section FrontLightFacts.
Variable echo : nat -> bool.
Variable time_us : nat -> Z.

(** The front lights are driven only when the measurement returns.  For
    a pulse below 4096 microseconds the three LEDs are then all switched
    on when the pulse is shorter than 870 microseconds (15 cm) and the
    light sensor reads low, and all switched off otherwise; nothing else
    changes. *)
Theorem front_lights_decision fuel k ldr w k' :
  fst (luz_frente_controlada echo time_us fuel k ldr w) = Some k' ->
  exists r,
    fst (measure_distance_cm echo time_us fuel k w) = Some r /\
    reads_done r = k' /\
    (0 <= pulse_duration r < 4096 ->
     let on := (pulse_duration r <? 870) && negb ldr in
     exec (luz_frente_controlada echo time_us fuel k ldr) w
     = with_out w (out w ++ [GpioPut TRIG_PIN true; SleepUs 10; GpioPut TRIG_PIN false;
                             GpioPut LED_BLUE_PIN on; GpioPut LED_GREEN_PIN on;
                             GpioPut LED_RED_PIN on])).
Proof.
  unfold luz_frente_controlada. rewrite fst_bind, exec_bind.
  destruct (fst (measure_distance_cm echo time_us fuel k w)) as [r|] eqn:Em;
    [|intros H; discriminate H].
  rewrite measure_run. intros H. exists r. split; [reflexivity|].
  assert (Hk : reads_done r = k').
  { destruct (F32.ltb (distance_cm r) (F32.of_Z 15) && negb ldr);
      cbv [bind gpio_put emit ret fst] in H; now injection H. }
  split; [exact Hk|]. intros Hp.
  assert (Hd : distance_cm r = pulse_to_cm (pulse_duration r)).
  { rewrite measure_result in Em.
    destruct (wait_while echo false fuel k) as [k1|]; [|discriminate Em].
    destruct (wait_while echo true fuel k1) as [k2|]; [|discriminate Em].
    injection Em as <-. reflexivity. }
  rewrite Hd, (near_threshold _ Hp).
  destruct w as [s co q b qi d t buf o].
  destruct ((pulse_duration r <? 870) && negb ldr);
    cbv -[app]; now rewrite <- !app_assoc.
Qed.

End FrontLightFacts.

Lemma front_lights_decision_witness :
  fst (luz_frente_controlada echo_pulse sample_clock 10 0 false world0) = Some 8%nat /\
  exists r,
    fst (measure_distance_cm echo_pulse sample_clock 10 0 world0) = Some r /\
    reads_done r = 8%nat.
Proof.
  assert (H : fst (luz_frente_controlada echo_pulse sample_clock 10 0 false world0)
              = Some 8%nat) by (vm_compute; reflexivity).
  split; [exact H|].
  destruct (front_lights_decision echo_pulse sample_clock 10 0 false world0 8 H)
    as (r & Hr & Hk & _).
  exists r. split; [exact Hr | exact Hk].
Defined.

(** ** Temperature scale *)

Lemma temp_tolerance raw :
  0 <= raw < 4096 ->
  (Qabs (SF2Q (temperature_of raw) - temperature_formula raw) <= 1 # 100)%Q.
Proof.
  intros H.
  pose proof (proj1 (forallb_forall _ _) all_samples_within_tolerance raw (In_upto _ _ H)) as T.
  unfold temp_within_tolerance in T. apply andb_true_iff in T as [_ T].
  now apply Qle_bool_iff.
Qed.

Lemma temperature_formula_step raw :
  (temperature_formula (raw + 1) == temperature_formula raw - (4125000 # 8811520))%Q.
Proof.
  unfold temperature_formula. rewrite inject_Z_plus. field.
Qed.

(** The temperature falls as the ADC reading rises: two consecutive
    12-bit readings give temperatures between 0.44 and 0.49 degrees
    apart, the higher reading the lower temperature. *)
Theorem temp_read_decreasing raw w :
  0 <= raw < 4095 ->
  let t0 := SF2Q (fst (temp_read raw w)) in
  let t1 := SF2Q (fst (temp_read (raw + 1) w)) in
  (t1 + (44 # 100) <= t0 /\ t0 <= t1 + (49 # 100))%Q.
Proof.
  intros H. cbv zeta. rewrite !temp_read_value.
  pose proof (temp_tolerance raw ltac:(lia)) as T0.
  pose proof (temp_tolerance (raw + 1) ltac:(lia)) as T1.
  pose proof (temperature_formula_step raw) as S.
  apply Qabs_Qle_condition in T0, T1.
  set (a := SF2Q (temperature_of raw)) in *.
  set (b := SF2Q (temperature_of (raw + 1))) in *.
  set (fa := temperature_formula raw) in *.
  set (fb := temperature_formula (raw + 1)) in *.
  clearbody a b fa fb.
  split; lra.
Qed.

Lemma temp_read_decreasing_witness :
  0 <= 876 < 4095 /\
  (SF2Q (fst (temp_read 877 world0)) + (44 # 100) <= SF2Q (fst (temp_read 876 world0)))%Q.
Proof.
  split; [lia|].
  exact (proj1 (temp_read_decreasing 876 world0 ltac:(lia))).
Defined.

(** ** The main loop *)

Lemma pio_words_app a b : pio_words (a ++ b) = (pio_words a ++ pio_words b)%list.
Proof.
  induction a as [|e a IH]; [reflexivity|].
  destruct e; cbn; rewrite ?IH; reflexivity.
Qed.

Lemma pio_words_map px : pio_words (map PioPut px) = px.
Proof. induction px as [|x px IH]; cbn; [reflexivity | now rewrite IH]. Qed.

Lemma same_flags_with_out w o : same_flags w (with_out w o).
Proof. intros []; reflexivity. Qed.

Lemma same_flags_trans a b c : same_flags a b -> same_flags b c -> same_flags a c.
Proof. intros H1 H2 f. now rewrite H1. Qed.

Lemma pixel_word_same_flags w v i : same_flags w v -> pixel_word w i = pixel_word v i.
Proof.
  intros H. unfold pixel_word.
  rewrite (H Sala : estado_led_sala w = _), (H Cozinha : estado_led_cozinha w = _),
    (H Quarto : estado_led_quarto w = _), (H Banheiro : estado_led_banheiro w = _),
    (H Quintal : estado_led_quintal w = _).
  reflexivity.
Qed.

Lemma run_requests_same_flags rs : forall w v,
  same_flags w v -> same_flags (run_requests rs w) (run_requests rs v).
Proof.
  induction rs as [|r rs IH]; intros w v H; [exact H|].
  apply IH. intros f. now rewrite !flag_after_request, H.
Qed.

Lemma ligar_display_frame w :
  same_flags w (exec ligar_display w) /\
  exists evs, out (exec ligar_display w) = (out w ++ evs)%list /\ pio_words evs = [].
Proof.
  destruct w as [s co q b qi d t buf o]. destruct d; cbv -[Z.eqb app].
  - split; [intros []; reflexivity|]. eexists [_]. split; reflexivity.
  - destruct (t =? 1).
    + split; [intros []; reflexivity|]. eexists [_; _; _].
      split; [now rewrite <- !app_assoc | reflexivity].
    + split; [intros []; reflexivity|]. exists []. split; [now rewrite app_nil_r | reflexivity].
Qed.

Lemma exec_emit e w : exec (emit e) w = with_out w (out w ++ [e]).
Proof. reflexivity. Qed.

Section LoopFacts.
Variable echo : nat -> bool.
Variable time_us : nat -> Z.
Variable printf_2f : F32.t -> string.

Lemma luz_frente_frame fuel k ldr w :
  exists evs,
    exec (luz_frente_controlada echo time_us fuel k ldr) w = with_out w (out w ++ evs) /\
    pio_words evs = [].
Proof.
  unfold luz_frente_controlada. rewrite exec_bind, measure_run.
  destruct w as [s co q b qi d t buf o].
  destruct (fst (measure_distance_cm echo time_us fuel k _)) as [r|].
  - cbv beta iota zeta.
    destruct (F32.ltb (distance_cm r) (F32.of_Z 15) && negb ldr) eqn:E;
      [ exists [GpioPut TRIG_PIN true; SleepUs 10; GpioPut TRIG_PIN false;
                GpioPut LED_BLUE_PIN true; GpioPut LED_GREEN_PIN true;
                GpioPut LED_RED_PIN true]
      | exists [GpioPut TRIG_PIN true; SleepUs 10; GpioPut TRIG_PIN false;
                GpioPut LED_BLUE_PIN false; GpioPut LED_GREEN_PIN false;
                GpioPut LED_RED_PIN false] ];
      (split; [|reflexivity]); cbv -[app]; now rewrite <- !app_assoc.
  - exists [GpioPut TRIG_PIN true; SleepUs 10; GpioPut TRIG_PIN false].
    split; reflexivity.
Qed.

Lemma recv_frame p adc_sample w :
  same_flags
    (match p with Some r => exec (user_request r) w | None => w end)
    (exec (tcp_server_recv printf_2f p adc_sample) w) /\
  exists evs,
    out (exec (tcp_server_recv printf_2f p adc_sample) w) = (out w ++ evs)%list /\
    pio_words evs = [].
Proof.
  destruct p as [request|].
  - unfold tcp_server_recv.
    repeat (rewrite exec_bind; cbv beta).
    rewrite temp_read_value, exec_temp_read, !exec_user_request.
    destruct w as [s co q b qi d t buf o].
    destruct (route request) as [[[]| |]|];
      cbn -[status_page c_str append temperature_of];
      (split; [intros []; reflexivity|]).
    1-6,9: eexists [_; _; _; _; _; _];
           (split; [rewrite <- !app_assoc; reflexivity | reflexivity]).
    + eexists [_; _; _; _; _; _; _].
      split; [rewrite <- !app_assoc; reflexivity | reflexivity].
    + eexists [_; _; _; _; _; _; _].
      split; [rewrite <- !app_assoc; reflexivity | reflexivity].
  - destruct w as [s co q b qi d t buf o]. cbn.
    split; [intros []; reflexivity|].
    eexists [_; _]. split; [now rewrite <- app_assoc | reflexivity].
Qed.

Lemma poll_frame ds : forall w,
  same_flags (run_requests (payloads ds) w) (exec (cyw43_arch_poll printf_2f ds) w) /\
  exists evs,
    out (exec (cyw43_arch_poll printf_2f ds) w) = (out w ++ evs)%list /\
    pio_words evs = [].
Proof.
  induction ds as [|[p adc] ds IH]; intros w.
  - split; [intros f; reflexivity|]. exists []. split; [now rewrite app_nil_r | reflexivity].
  - unfold cyw43_arch_poll. cbn [for_each fst snd].
    rewrite exec_bind. cbv beta. fold (cyw43_arch_poll printf_2f ds).
    rewrite exec_bind. cbv beta.
    change (exec (ret tt) ?x) with x.
    destruct (recv_frame p adc w) as (F1 & e1 & O1 & P1).
    destruct (IH (exec (tcp_server_recv printf_2f p adc) w)) as (F2 & e2 & O2 & P2).
    split.
    + eapply same_flags_trans; [|exact F2].
      destruct p as [r|]; cbn [payloads].
      * change (run_requests (r :: payloads ds) w)
          with (run_requests (payloads ds) (exec (user_request r) w)).
        now apply run_requests_same_flags.
      * now apply run_requests_same_flags.
    + exists (e1 ++ e2)%list. rewrite O2, O1, <- app_assoc, pio_words_app, P1, P2.
      split; reflexivity.
Qed.

Lemma loop_exec fuel k ldr ds w :
  exec (loop_iteration echo time_us printf_2f fuel k ldr ds) w =
  match fst (luz_frente_controlada echo time_us fuel k ldr w) with
  | None => exec (luz_frente_controlada echo time_us fuel k ldr) w
  | Some _ =>
      exec (sleep_ms 100)
        (exec (cyw43_arch_poll printf_2f ds)
           (exec ligar_display
              (exec ligar_luz (exec (luz_frente_controlada echo time_us fuel k ldr) w))))
  end.
Proof.
  unfold loop_iteration, exec, bind.
  destruct (luz_frente_controlada echo time_us fuel k ldr w) as [[k1|] w0];
    cbn [fst snd]; [|reflexivity].
  destruct (ligar_luz w0) as [u1 w1]. cbn [snd].
  destruct (ligar_display w1) as [u2 w2]. cbn [snd].
  destruct (cyw43_arch_poll printf_2f ds w2) as [u3 w3]. cbn [snd].
  destruct (sleep_ms 100 w3) as [u4 w4]. reflexivity.
Qed.

Lemma loop_fst fuel k ldr ds w :
  fst (loop_iteration echo time_us printf_2f fuel k ldr ds w)
  = fst (luz_frente_controlada echo time_us fuel k ldr w).
Proof.
  unfold loop_iteration, bind.
  destruct (luz_frente_controlada echo time_us fuel k ldr w) as [[k1|] w0];
    cbn [fst]; [|reflexivity].
  destruct (ligar_luz w0) as [u1 w1].
  destruct (ligar_display w1) as [u2 w2].
  destruct (cyw43_arch_poll printf_2f ds w2) as [u3 w3].
  destruct (sleep_ms 100 w3) as [u4 w4]. reflexivity.
Qed.

(** An iteration of the main loop that gets past the sensor renders the
    matrix from the flags it started with, and ends with the flags that
    result from routing, in order, the requests delivered during its
    poll: a toggle shows on the matrix one iteration after its request. *)
Theorem loop_iteration_effect fuel k ldr ds w k' :
  fst (loop_iteration echo time_us printf_2f fuel k ldr ds w) = Some k' ->
  let w' := exec (loop_iteration echo time_us printf_2f fuel k ldr ds) w in
  same_flags w' (run_requests (payloads ds) w) /\
  exists evs px,
    out w' = (out w ++ evs)%list /\
    out (exec ligar_luz w) = (out w ++ map PioPut px)%list /\
    pio_words evs = px /\
    last evs (SleepMs 0) = SleepMs 100.
Proof.
  rewrite loop_fst, loop_exec.
  destruct (fst (luz_frente_controlada echo time_us fuel k ldr w)) as [k1|];
    [|intros H; discriminate H].
  intros _. cbv zeta.
  destruct (luz_frente_frame fuel k ldr w) as (e0 & R0 & P0). rewrite R0.
  set (w0 := with_out w (out w ++ e0)).
  assert (F0 : same_flags w w0) by apply same_flags_with_out.
  set (w1 := exec ligar_luz w0).
  assert (O1 : out w1 = (out w0 ++ map PioPut (map (pixel_word w) (upto NUM_PIXELS)))%list).
  { subst w1. rewrite ligar_luz_pixels. reflexivity. }
  assert (F1 : same_flags w0 w1).
  { subst w1. rewrite ligar_luz_run. apply same_flags_with_out. }
  destruct (ligar_display_frame w1) as (F2 & e2 & O2 & P2).
  set (w2 := exec ligar_display w1) in *.
  destruct (poll_frame ds w2) as (F3 & e3 & O3 & P3).
  set (w3 := exec (cyw43_arch_poll printf_2f ds) w2) in *.
  assert (F02 : same_flags w w2)
    by (intros f; rewrite (F0 f), (F1 f); apply F2).
  unfold sleep_ms. rewrite exec_emit.
  split.
  - intros f. rewrite <- (same_flags_with_out w3 _ f). symmetry.
    rewrite (run_requests_same_flags (payloads ds) w w2 F02 f). apply F3.
  - exists (e0 ++ map PioPut (map (pixel_word w) (upto NUM_PIXELS)) ++ e2 ++ e3 ++ [SleepMs 100])%list.
    exists (map (pixel_word w) (upto NUM_PIXELS)).
    split; [|split; [apply ligar_luz_pixels | split]].
    + cbn [out with_out]. rewrite O3, O2, O1. subst w0. cbn [out with_out].
      now rewrite <- !app_assoc.
    + rewrite !pio_words_app, P0, P2, P3, pio_words_map. cbn. now rewrite app_nil_r.
    + rewrite !app_assoc. apply last_last.
Qed.

(** When the echo line stays low the iteration never gets past the
    sensor: whatever the bound on polls, only the trigger pulse is sent,
    and no frame, matrix update or network poll is reached. *)
Theorem loop_stalls_without_echo fuel k ldr ds w :
  (forall j, (k <= j)%nat -> echo j = false) ->
  fst (loop_iteration echo time_us printf_2f fuel k ldr ds w) = None /\
  exec (loop_iteration echo time_us printf_2f fuel k ldr ds) w
  = with_out w (out w ++ [GpioPut TRIG_PIN true; SleepUs 10; GpioPut TRIG_PIN false]).
Proof.
  intros H.
  assert (Hm : fst (measure_distance_cm echo time_us fuel k w) = None).
  { rewrite measure_result, (wait_while_stuck echo false fuel k H). reflexivity. }
  assert (Hl : fst (luz_frente_controlada echo time_us fuel k ldr w) = None).
  { unfold luz_frente_controlada. now rewrite fst_bind, Hm. }
  rewrite loop_fst, loop_exec, Hl. split; [reflexivity|].
  unfold luz_frente_controlada. now rewrite exec_bind, Hm, measure_run.
Qed.

End LoopFacts.

Lemma loop_iteration_effect_witness :
  let ds := [(Some (toggle_request Sala browser_tail), 876)] in
  fst (loop_iteration echo_pulse sample_clock (fun _ => "27.14"%string) 10 0 false ds world0)
  = Some 8%nat /\
  same_flags
    (exec (loop_iteration echo_pulse sample_clock (fun _ => "27.14"%string) 10 0 false ds) world0)
    (run_requests (payloads ds) world0).
Proof.
  cbv zeta.
  assert (H : fst (loop_iteration echo_pulse sample_clock (fun _ => "27.14"%string) 10 0 false
                     [(Some (toggle_request Sala browser_tail), 876)] world0) = Some 8%nat)
    by (vm_compute; reflexivity).
  split; [exact H|].
  exact (proj1 (loop_iteration_effect echo_pulse sample_clock (fun _ => "27.14"%string)
                  10 0 false _ world0 8 H)).
Defined.

Lemma loop_stalls_without_echo_witness :
  (forall j, (0 <= j)%nat -> (fun _ : nat => false) j = false) /\
  fst (loop_iteration (fun _ => false) sample_clock (fun _ => "27.14"%string) 50 0 false [] world0)
  = None.
Proof.
  split; [reflexivity|].
  exact (proj1 (loop_stalls_without_echo (fun _ => false) sample_clock
                  (fun _ => "27.14"%string) 50 0 false [] world0 (fun _ _ => eq_refl))).
Defined.
